(** * Price-Watcher: the extraction pipeline and the price-check endpoints

    A shallow embedding of [src/api/index.ts] (the Express server of the
    Price-Watcher repository): the scraper [scrapeProductData], its wrapper
    [scrapePrice], the manual check and delete endpoints and the cron sweep.

    The embedding stops at three library boundaries, which appear as data:
    - [fetch]: what the request for a URL produced ([fetch_outcome]);
    - cheerio and [JSON.parse]: the answers of the loaded page to the fixed
      selectors the scraper queries ([document]);
    - Prisma and nodemailer: a store of products, price-history rows and
      users, and an outbox ([db]). *)

From Stdlib Require Import QArith String Ascii.
From stdpp Require Import gmap list.

#[local] Open Scope Z_scope.

(** ** JavaScript strings

    A JavaScript string is a sequence of UTF-16 code units; [length],
    [substring], [includes] and the regular expressions of the source (none
    has the [u] flag) all work on code units. *)

Definition cu := N.
Definition str := list cu.

(** ASCII literals of the source. *)
Definition lit (s : string) : str := map N_of_ascii (list_ascii_of_string s).

(** The two non-ASCII literals of the source: U+20BA and U+20AC. *)
Definition LIRA : str := [8378%N].
Definition EURO : str := [8364%N].
Definition DOLLAR : str := lit "$".

Definition str_eqb (a b : str) : bool := bool_decide (a = b).

(** [!s] for a string: only the empty string is falsy. *)
Definition truthy (s : str) : bool :=
  match s with [] => false | _ :: _ => true end.

Definition is_digit (c : cu) : bool := ((48 <=? c) && (c <=? 57))%N.

(** WhiteSpace and LineTerminator of ECMA-262, the set removed by
    [String.prototype.trim] and skipped by [parseFloat]. *)
Definition is_ws (c : cu) : bool :=
  (((9 <=? c) && (c <=? 13)) || (c =? 32) || (c =? 160) || (c =? 5760)
   || ((8192 <=? c) && (c <=? 8202)) || (c =? 8232) || (c =? 8233)
   || (c =? 8239) || (c =? 8287) || (c =? 12288) || (c =? 65279))%N.

Fixpoint trimStart (s : str) : str :=
  match s with
  | c :: r => if is_ws c then trimStart r else s
  | [] => []
  end.

Definition trimEnd (s : str) : str := rev (trimStart (rev s)).

Definition trim (s : str) : str := trimEnd (trimStart s).

Fixpoint startsWith (p s : str) : bool :=
  match p, s with
  | [], _ => true
  | a :: p', b :: s' => (a =? b)%N && startsWith p' s'
  | _ :: _, [] => false
  end.

(** [s.includes(p)] *)
Fixpoint includes (p s : str) : bool :=
  startsWith p s || match s with [] => false | _ :: r => includes p r end.

(** [s.replace(/[...]/g, "")] with a negated class: the units of the class
    are kept, every other unit is dropped. *)
Definition keep (cls : cu -> bool) (s : str) : str := List.filter cls s.

(** The three classes of the source: [0-9.,], [-0-9,.] and [0-9]. *)
Definition cls_price (c : cu) : bool := (is_digit c || (c =? 46) || (c =? 44))%N.
Definition cls_signed (c : cu) : bool := ((c =? 45) || cls_price c)%N.

(** [s.replace(/\./g, "")] *)
Definition removePeriods (s : str) : str := List.filter (fun c => negb (c =? 46)%N) s.

(** [s.replace(",", ".")]: a string pattern replaces the first occurrence only. *)
Fixpoint replaceComma (s : str) : str :=
  match s with
  | [] => []
  | c :: r => if (c =? 44)%N then 46%N :: r else c :: replaceComma r
  end.

(** [s.substring(0, n)] *)
Definition substring0 (n : nat) (s : str) : str := take n s.

(** ** JavaScript numbers

    The source computes with doubles.  The embedding keeps the decimal value
    that [parseFloat] reads exactly, as a rational, next to NaN and the two
    infinities.  Rounding to the nearest double is monotone and fixes 0, so
    the tests against 0 that guard the branches of the scraper read the same
    on both sides for every decimal a double does not flush to zero. *)

Inductive num :=
| NaN
| Inf (neg : bool)
| Fin (q : Q).

Definition isNaN (n : num) : bool :=
  match n with NaN => true | _ => false end.

(** [n > 0] *)
Definition gt0 (n : num) : bool :=
  match n with
  | NaN => false
  | Inf neg => negb neg
  | Fin q => negb (Qle_bool q 0)
  end.

(** [n === 0] *)
Definition is0 (n : num) : bool :=
  match n with
  | Fin q => Qeq_bool q 0
  | _ => false
  end.

(** [a < b] *)
Definition num_lt (a b : num) : bool :=
  match a, b with
  | NaN, _ | _, NaN => false
  | Inf true, Inf true => false
  | Inf true, _ => true
  | _, Inf true => false
  | Inf false, _ => false
  | Fin _, Inf false => true
  | Fin x, Fin y => negb (Qle_bool y x)
  end.

(** [0 <= n], as a proposition: NaN is not. *)
Definition nonneg (n : num) : Prop :=
  match n with
  | NaN => False
  | Inf neg => neg = false
  | Fin q => (0 <= q)%Q
  end.

Definition ZERO : num := Fin 0.

(** *** parseFloat

    Leading white space is skipped, then the longest prefix that is a
    StrDecimalLiteral is read: an optional sign, then [Infinity] or digits
    with an optional fraction and an optional exponent.  No such prefix: NaN. *)

Fixpoint span_digits (s : str) : str * str :=
  match s with
  | c :: r =>
      if is_digit c then let '(d, t) := span_digits r in (c :: d, t)
      else ([], s)
  | [] => ([], [])
  end.

Definition digits_value (ds : str) : Z :=
  fold_left (fun acc c => 10 * acc + (Z.of_N c - 48)) ds 0.

(** The exponent part [e±ddd], kept only when at least one digit follows. *)
Definition exponent (s : str) : Z :=
  match s with
  | c :: r =>
      if ((c =? 101) || (c =? 69))%N then
        let '(neg, r') :=
          match r with
          | sg :: t => if (sg =? 45)%N then (true, t)
                       else if (sg =? 43)%N then (false, t) else (false, r)
          | [] => (false, r)
          end in
        let '(d, _) := span_digits r' in
        match d with
        | [] => 0
        | _ => if neg then - digits_value d else digits_value d
        end
      else 0
  | [] => 0
  end.

Definition pow10 (n : Z) : positive := Z.to_pos (10 ^ n).

Definition unsigned_decimal (s : str) : option Q :=
  let '(ip, r1) := span_digits s in
  let '(fp, r2) :=
    match r1 with
    | c :: r => if (c =? 46)%N then span_digits r else ([], r1)
    | [] => ([], r1)
    end in
  match ip, fp with
  | [], [] => None
  | _, _ =>
      let e := exponent r2 in
      Some (Qmake (digits_value (ip ++ fp) * 10 ^ Z.max e 0)
                  (pow10 (Z.of_nat (length fp)) * pow10 (Z.max (- e) 0)))
  end.

Definition INFINITY : str := lit "Infinity".

Definition parseFloat (s : str) : num :=
  let t := trimStart s in
  let '(neg, u) :=
    match t with
    | c :: r => if (c =? 45)%N then (true, r)
                else if (c =? 43)%N then (false, r) else (false, t)
    | [] => (false, t)
    end in
  if startsWith INFINITY u then Inf neg
  else match unsigned_decimal u with
       | Some q => Fin (if neg then Qopp q else q)
       | None => NaN
       end.

(** ** The page, as cheerio and JSON.parse show it to the scraper *)

(** JSON-LD data in the shape the scraper reads: [name] and [priceCurrency]
    are strings and [price] is a string or a number when present, [offers]
    is an object or an array of objects.  A block whose [JSON.parse] throws,
    or whose value is [null], is [BlockInvalid] (the [catch] swallows both);
    a value that is no Product (a number, a string, the [{}] substituted for
    an empty script) is a [BlockObj] without [ld_type]. *)
Inductive ld_price :=
| PriceNum (n : num)
| PriceStr (s : str).

Record ld_offer := {
  ld_price_of : option ld_price;
  ld_priceCurrency : option str
}.

Inductive ld_offers :=
| OffersObj (o : ld_offer)
| OffersArr (l : list ld_offer).

Record ld_item := {
  ld_type : option str;
  ld_name : option str;
  ld_offers_of : option ld_offers
}.

Inductive ld_block :=
| BlockInvalid
| BlockObj (i : ld_item)
| BlockArr (l : list ld_item).

(** The answers of the loaded page to the selectors of [scrapeProductData].
    An [option] is the result of [.attr("content")] ([None]: undefined), a
    [str] the result of [.text()] (empty when nothing matches), before
    [.trim()]. *)
Record document := {
  ld_json : list ld_block;              (* script[type="application/ld+json"] *)
  meta_og_title : option str;           (* meta[property="og:title"] *)
  meta_twitter_title : option str;      (* meta[name="twitter:title"] *)
  meta_product_price_amount : option str;
  meta_og_price_amount : option str;
  meta_twitter_data1 : option str;
  meta_product_price_currency : option str;
  meta_og_price_currency : option str;
  h1_product_name : str;                (* $("h1.product-name").text() *)
  span_price : str;                     (* $("span.price").text() *)
  a_price_whole : str;                  (* $(".a-price-whole").first().text() *)
  a_price_fraction : str;               (* $(".a-price-fraction").first().text() *)
  a_offscreen : str;                    (* $(".a-price .a-offscreen").first().text() *)
  prc_dsc : str;                        (* $(".prc-dsc").text() *)
  h1_first : str;                       (* $("h1").first().text() *)
  title_text : str;                     (* $("title").text() *)
  price_like : list str                 (* text of each [class*="price"], [id*="price"] *)
}.

(** ** The scraper *)

(** The four variables [scrapeProductData] fills. *)
Record slots := {
  title : str;
  price : num;
  priceText : str;
  currency : str
}.

Definition set_title (t : str) (st : slots) : slots :=
  {| title := t; price := price st; priceText := priceText st; currency := currency st |}.
Definition set_price (n : num) (st : slots) : slots :=
  {| title := title st; price := n; priceText := priceText st; currency := currency st |}.
Definition set_priceText (t : str) (st : slots) : slots :=
  {| title := title st; price := price st; priceText := t; currency := currency st |}.
Definition set_currency (c : str) (st : slots) : slots :=
  {| title := title st; price := price st; priceText := priceText st; currency := c |}.

(** [let title = ""; let price = 0; let priceText = ""; let currency = "₺"] *)
Definition init : slots :=
  {| title := []; price := ZERO; priceText := []; currency := LIRA |}.

(** Truthiness of an attribute value: undefined and the empty string are falsy. *)
Definition is_set (a : option str) : bool :=
  match a with Some s => truthy s | None => false end.

(** [a || b] on attribute values, and [a || s] ending in a string. *)
Definition or_attr (a b : option str) : option str := if is_set a then a else b.
Definition or_str (a : option str) (s : str) : str :=
  match a with Some x => if truthy x then x else s | None => s end.

(** The ternary chain written out twice in the source (JSON-LD and meta). *)
Definition mapCurrency (c : str) : str :=
  if str_eqb c (lit "TRY") then LIRA
  else if str_eqb c (lit "USD") then DOLLAR
  else if str_eqb c (lit "EUR") then EURO
  else c.

(** [parseFloat(t.replace(/[^0-9.,]/g, "").replace(",", "."))]: meta tags,
    [span.price], [.prc-dsc] and the fallback scanner. *)
Definition parseGeneric (t : str) : num :=
  parseFloat (replaceComma (keep cls_price t)).

(** The [.a-offscreen] branch. *)
Definition parseOffscreen (t : str) : num :=
  let cleanPrice := keep cls_signed t in
  if includes (lit ",") cleanPrice && includes (lit ".") cleanPrice then
    parseFloat (replaceComma (removePeriods cleanPrice))
  else if includes (lit ",") cleanPrice then
    parseFloat (replaceComma cleanPrice)
  else parseFloat cleanPrice.

(** The currency sniffing of [span.price] and of the fallback scanner. *)
Definition sniff (t : str) (st : slots) : slots :=
  if includes DOLLAR t then set_currency DOLLAR st
  else if includes EURO t then set_currency EURO st
  else if includes (lit "TL") t || includes LIRA t then set_currency LIRA st
  else st.

(** *** 1. JSON-LD *)

Definition is_product (it : ld_item) : bool :=
  match ld_type it with
  | Some t => str_eqb t (lit "Product") || str_eqb t (lit "http://schema.org/Product")
  | None => false
  end.

(** [if (offers.price)] and [parseFloat(offers.price)]: a number converts to
    its shortest decimal, which reads back as the same number. *)
Definition price_truthy (p : ld_price) : bool :=
  match p with
  | PriceNum n => negb (isNaN n) && negb (is0 n)
  | PriceStr s => truthy s
  end.
Definition price_parse (p : ld_price) : num :=
  match p with
  | PriceNum n => n
  | PriceStr s => parseFloat s
  end.

(** How the body of the [for] loop is left. *)
Inductive signal := Next | ReturnFalse | Throw.

Definition ld_item_step (st : slots) (it : ld_item) : slots * signal :=
  if is_product it then
    let st1 := match ld_name it with
               | Some n => if truthy n then set_title n st else st
               | None => st
               end in
    match ld_offers_of it with
    | None => (st1, Next)
    | Some os =>
        (* Array.isArray(item.offers) ? item.offers[0] : item.offers *)
        match (match os with OffersObj o => Some o | OffersArr l => head l end) with
        | None => (st1, Throw)   (* offers[0] is undefined: offers.price throws *)
        | Some o =>
            let st2 := match ld_price_of o with
                       | Some p => if price_truthy p then set_price (price_parse p) st1 else st1
                       | None => st1
                       end in
            let st3 := match ld_priceCurrency o with
                       | Some c => if truthy c then set_currency (mapCurrency c) st2 else st2
                       | None => st2
                       end in
            if gt0 (price st3) then (st3, ReturnFalse) else (st3, Next)
        end
    end
  else (st, Next).

(** The [for (const item of items)] loop inside [try]; the boolean says
    whether the callback returned [false]. *)
Fixpoint ld_items (st : slots) (l : list ld_item) : slots * bool :=
  match l with
  | [] => (st, false)
  | it :: r =>
      match ld_item_step st it with
      | (st', Next) => ld_items st' r
      | (st', ReturnFalse) => (st', true)
      | (st', Throw) => (st', false)
      end
  end.

Definition ld_block_step (st : slots) (b : ld_block) : slots * bool :=
  match b with
  | BlockInvalid => (st, false)
  | BlockObj i => ld_items st [i]
  | BlockArr l => ld_items st l
  end.

(** [.each(...)]: stops at the first callback that returns [false]. *)
Fixpoint step1_jsonld (st : slots) (bs : list ld_block) : slots :=
  match bs with
  | [] => st
  | b :: r =>
      let '(st', stop) := ld_block_step st b in
      if stop then st' else step1_jsonld st' r
  end.

(** *** 2. Meta tags *)

Definition step2_meta (d : document) (st : slots) : slots :=
  let st1 :=
    if truthy (title st) then st
    else set_title (or_str (meta_og_title d) (or_str (meta_twitter_title d) [])) st in
  let st2 :=
    if is0 (price st1) then
      match or_attr (meta_product_price_amount d)
              (or_attr (meta_og_price_amount d) (meta_twitter_data1 d)) with
      | Some m => if truthy m then set_price (parseGeneric m) st1 else st1
      | None => st1
      end
    else st1 in
  match or_attr (meta_product_price_currency d) (meta_og_price_currency d) with
  | Some c => if truthy c then set_currency (mapCurrency c) st2 else st2
  | None => st2
  end.

(** *** 3. h1.product-name and span.price *)

Definition step3_selectors (d : document) (st : slots) : slots :=
  let st1 := if truthy (title st) then st else set_title (trim (h1_product_name d)) st in
  if is0 (price st1) then
    let st2 := set_priceText (trim (span_price d)) st1 in
    if truthy (priceText st2) then
      sniff (priceText st2) (set_price (parseGeneric (priceText st2)) st2)
    else st2
  else st1.

(** *** 4. Amazon and Trendyol *)

Definition step4_amazon (url : str) (d : document) (st : slots) : slots :=
  if includes (lit "amazon.com") url then
    let amazonPriceWhole := trim (a_price_whole d) in
    let amazonPriceFraction := trim (a_price_fraction d) in
    let amazonOffscreen := trim (a_offscreen d) in
    let st1 :=
      if truthy amazonOffscreen then
        set_price (parseOffscreen amazonOffscreen) (set_priceText amazonOffscreen st)
      else if truthy amazonPriceWhole then
        let whole := keep is_digit amazonPriceWhole in
        let fraction :=
          let f := keep is_digit amazonPriceFraction in
          if truthy f then f else lit "00" in
        set_price (parseFloat (whole ++ lit "." ++ fraction)) st
      else st in
    if gt0 (price st1) then
      set_currency (if includes (lit ".tr") url then LIRA else DOLLAR) st1
    else st1
  else st.

Definition step4_trendyol (url : str) (d : document) (st : slots) : slots :=
  if includes (lit "trendyol.com") url then
    let st1 := set_currency LIRA st in
    if is0 (price st1) then
      let trendyolPrice := trim (prc_dsc d) in
      if truthy trendyolPrice then set_price (parseGeneric trendyolPrice) st1 else st1
    else st1
  else st.

(** *** 5. Final fallbacks *)

Definition UNKNOWN : str := lit "Unknown Product".

Definition step5_title (d : document) (st : slots) : slots :=
  if truthy (title st) then st
  else
    let h := trim (h1_first d) in
    let t := trim (title_text d) in
    set_title (if truthy h then h else if truthy t then t else UNKNOWN) st.

(** The callback of the fallback scanner skips ([return true]) or rejects a
    text, or takes it. *)
Definition skipped (text : str) : bool :=
  includes (lit "%") text || (length text <? 2)%nat || (20 <? length text)%nat.

Fixpoint scan (st : slots) (els : list str) : slots :=
  match els with
  | [] => st
  | el :: r =>
      let text := trim el in
      if skipped text then scan st r
      else
        let detectedPrice := parseGeneric text in
        if gt0 detectedPrice then
          sniff text (set_priceText text (set_price detectedPrice st))
        else scan st r
  end.

Definition step5_price (d : document) (st : slots) : slots :=
  if is0 (price st) then scan st (price_like d) else st.

(** [if (title.length > 100) title = title.substring(0, 97) + "..."] *)
Definition truncate (t : str) : str :=
  if (100 <? length t)%nat then substring0 97 t ++ lit "..." else t.

Definition extract (url : str) (d : document) : slots :=
  let st := step1_jsonld init (ld_json d) in
  let st := step2_meta d st in
  let st := step3_selectors d st in
  let st := step4_amazon url d st in
  let st := step4_trendyol url d st in
  let st := step5_title d st in
  let st := step5_price d st in
  set_title (truncate (title st)) st.

(** *** fetch, and the two entry points *)

(** What [await fetch(url, { signal })] and [await response.text()] produce.
    The 8 s timer shows as [Timeout]: the abort rejects the pending fetch. *)
Inductive body :=
| BodyFailed (message : str)
| BodyText (d : document).

Inductive fetch_outcome :=
| Timeout (message : str)
| NetworkFailure (message : str)
| Response (ok : bool) (statusText : str) (b : body).

Definition fetch_failed (o : fetch_outcome) : Prop :=
  match o with
  | Timeout _ | NetworkFailure _ => True
  | Response ok _ _ => ok = false
  end.

(** The object [scrapeProductData] resolves to. *)
Inductive scrape_result :=
| Scraped (title : str) (price : num) (currency : str) (rawPrice : str)
| Failed (error : str).

Definition success (r : scrape_result) : bool :=
  match r with Scraped _ _ _ _ => true | Failed _ => false end.

(** [error.message || "Failed to scrape product data"] *)
Definition caught (message : str) : scrape_result :=
  Failed (if truthy message then message else lit "Failed to scrape product data").

Definition scrapeProductData (web : str -> fetch_outcome) (url : str) : scrape_result :=
  match web url with
  | Timeout m | NetworkFailure m => caught m
  | Response false statusText _ => caught (lit "Failed to fetch URL: " ++ statusText)
  | Response true _ (BodyFailed m) => caught m
  | Response true _ (BodyText d) =>
      let st := extract url d in
      Scraped (title st) (if isNaN (price st) then ZERO else price st)
              (currency st) (priceText st)
  end.

Record scraped_price := {
  sp_price : num;
  sp_title : str;
  sp_currency : str
}.

Definition scrapePrice (web : str -> fetch_outcome) (url : str) : scraped_price :=
  match scrapeProductData web url with
  | Scraped t p c _ =>
      {| sp_price := if gt0 p then p else ZERO; sp_title := t; sp_currency := c |}
  | Failed _ =>
      {| sp_price := ZERO; sp_title := UNKNOWN; sp_currency := LIRA |}
  end.

(** ** The store and the endpoints *)

(** Rows of the three Prisma models, with the columns the endpoints use.
    A product is keyed by its [id]; price-history rows are kept in the order
    they were created (their [id] and [checkedAt] both grow with it). *)
Record product := {
  url : str;
  p_title : str;
  currentPrice : num;
  p_currency : str;
  userId : Z
}.

Record sample := {
  productId : Z;
  s_price : num
}.

Record user := {
  notificationEmail : option str
}.

Record mail := {
  m_to : str;
  m_productTitle : str;
  m_oldPrice : num;
  m_newPrice : num;
  m_currency : str;
  m_url : str
}.

Record store := {
  products : gmap Z product;
  priceHistory : list sample;
  users : gmap Z user;
  outbox : list mail
}.

(** The writes an endpoint issues; any of them may reject. *)
Inductive write :=
| ProductUpdate (id : Z)
| HistoryDeleteMany (id : Z)
| ProductDelete (id : Z).

Record env := {
  web : str -> fetch_outcome;
  write_fails : write -> bool;
  smtp_fails : mail -> bool
}.

(** [prisma.product.findFirst({ where: { id, userId } })] *)
Definition findFirst (id uid : Z) (s : store) : option product :=
  match products s !! id with
  | Some p => if userId p =? uid then Some p else None
  | None => None
  end.

(** The row [p] with the [data] of an update. *)
Definition with_price (p : product) (pr : num) (cur : str) : product :=
  {| url := url p; p_title := p_title p; currentPrice := pr; p_currency := cur;
     userId := userId p |}.

(** [prisma.product.update({ where: { id }, data: { currentPrice, currency,
    priceHistory: { create: { price } } } })]: one write, which rejects when
    the row is missing. *)
Definition product_update (e : env) (id : Z) (pr : num) (cur : str) (s : store)
  : option store :=
  if write_fails e (ProductUpdate id) then None
  else match products s !! id with
       | None => None
       | Some p =>
           Some {| products := <[id := with_price p pr cur]> (products s);
                   priceHistory := priceHistory s ++ [{| productId := id; s_price := pr |}];
                   users := users s;
                   outbox := outbox s |}
       end.

(** [prisma.priceHistory.deleteMany({ where: { productId: id } })] *)
Definition history_deleteMany (e : env) (id : Z) (s : store) : option store :=
  if write_fails e (HistoryDeleteMany id) then None
  else Some {| products := products s;
               priceHistory := List.filter (fun h => negb (productId h =? id)) (priceHistory s);
               users := users s;
               outbox := outbox s |}.

(** [prisma.product.delete({ where: { id } })] *)
Definition product_delete (e : env) (id : Z) (s : store) : option store :=
  if write_fails e (ProductDelete id) then None
  else match products s !! id with
       | None => None
       | Some _ =>
           Some {| products := delete id (products s);
                   priceHistory := priceHistory s;
                   users := users s;
                   outbox := outbox s |}
       end.

(** [include: { priceHistory: { orderBy: { checkedAt: "desc" }, take: 10 } }] *)
Definition last10 (id : Z) (s : store) : list sample :=
  take 10 (rev (List.filter (fun h => productId h =? id) (priceHistory s))).

(** [sendPriceDropEmail]: nothing without an address; a transport error is
    caught and logged. *)
Definition sendPriceDropEmail (e : env) (m : mail) (s : store) : store :=
  if truthy (m_to m) then
    if smtp_fails e m then s
    else {| products := products s; priceHistory := priceHistory s;
            users := users s; outbox := outbox s ++ [m] |}
  else s.

(** What a handler answers.  [Unhandled]: an awaited write rejected outside
    any [try]; the handler's promise rejects and the request does not get
    its JSON answer. *)
Inductive reply :=
| NotFound
| Updated (p : product) (history : list sample)
| Deleted
| Swept (updated : nat)
| Unhandled.

(** [POST /api/products/:id/check], after the session middleware has set
    [req.userId] and [parseInt] has read the id. *)
Definition check_handler (e : env) (uid id : Z) (s : store) : store * reply :=
  match findFirst id uid s with
  | None => (s, NotFound)
  | Some product =>
      let r := scrapePrice (web e) (url product) in
      match product_update e id (sp_price r) (sp_currency r) s with
      | None => (s, Unhandled)
      | Some s' =>
          (s', Updated (with_price product (sp_price r) (sp_currency r)) (last10 id s'))
      end
  end.

(** [DELETE /api/products/:id] *)
Definition delete_handler (e : env) (uid id : Z) (s : store) : store * reply :=
  match findFirst id uid s with
  | None => (s, NotFound)
  | Some _ =>
      match history_deleteMany e id s with
      | None => (s, Unhandled)
      | Some s1 =>
          match product_delete e id s1 with
          | None => (s1, Unhandled)
          | Some s2 => (s2, Deleted)
          end
      end
  end.

(** [prisma.product.findMany({ include: { user: true } })]: every product
    with the notification address of its owner. *)
Definition owner_email (s : store) (p : product) : option str :=
  match users s !! userId p with
  | Some u => notificationEmail u
  | None => None
  end.

Definition findMany (s : store) : list (Z * product * option str) :=
  map (fun '(id, p) => (id, p, owner_email s p)) (map_to_list (products s)).

(** One turn of the [for (const product of products)] loop of
    [GET /api/cron/check], with its [try]/[catch]; the [cron.schedule] job
    runs the same body without the counter. *)
Definition check_one (e : env) (acc : store * nat) (row : Z * product * option str)
  : store * nat :=
  let '(s, updatedCount) := acc in
  let '(id, product, email) := row in
  let r := scrapePrice (web e) (url product) in
  if gt0 (sp_price r) then
    let oldPrice := currentPrice product in
    match product_update e id (sp_price r) (sp_currency r) s with
    | None => (s, updatedCount)
    | Some s1 =>
        let s2 :=
          if num_lt (sp_price r) oldPrice && is_set email then
            sendPriceDropEmail e
              {| m_to := default [] email; m_productTitle := p_title product;
                 m_oldPrice := oldPrice; m_newPrice := sp_price r;
                 m_currency := sp_currency r; m_url := url product |} s1
          else s1 in
        (s2, S updatedCount)
    end
  else (s, updatedCount).

Definition sweep (e : env) (rows : list (Z * product * option str)) (s : store)
  : store * nat :=
  fold_left (check_one e) rows (s, 0%nat).

Definition cron_check (e : env) (s : store) : store * reply :=
  let '(s', updatedCount) := sweep e (findMany s) s in
  (s', Swept updatedCount).

(** ** Sample pages and worlds *)

(** A page on which no selector matches, with five places to fill in. *)
Definition page (ld : list ld_block) (metaPrice metaCurrency : option str)
    (offscreen : str) (priceLike : list str) : document :=
  {| ld_json := ld;
     meta_og_title := None; meta_twitter_title := None;
     meta_product_price_amount := metaPrice;
     meta_og_price_amount := None; meta_twitter_data1 := None;
     meta_product_price_currency := metaCurrency;
     meta_og_price_currency := None;
     h1_product_name := []; span_price := [];
     a_price_whole := []; a_price_fraction := []; a_offscreen := offscreen;
     prc_dsc := []; h1_first := []; title_text := [];
     price_like := priceLike |}.

Definition blank : document := page [] None None [] [].

(** A Product whose offer is [{ price: "12.99", priceCurrency: "USD" }]. *)
Definition usd_product : ld_block :=
  BlockObj {| ld_type := Some (lit "Product");
              ld_name := Some (lit "Mug");
              ld_offers_of :=
                Some (OffersObj {| ld_price_of := Some (PriceStr (lit "12.99"));
                                   ld_priceCurrency := Some (lit "USD") |}) |}.

Definition shop_url : str := lit "https://shop.example/p/1".

(** Every URL answers 200 with the page [d]. *)
Definition serve (d : document) : str -> fetch_outcome :=
  fun _ => Response true (lit "OK") (BodyText d).

(** Every request is aborted by the 8 s timer. *)
Definition hang : str -> fetch_outcome :=
  fun _ => Timeout (lit "This operation was aborted").

(** An environment in which no write and no mail fails. *)
Definition calm (w : str -> fetch_outcome) : env :=
  {| web := w; write_fails := fun _ => false; smtp_fails := fun _ => false |}.

(** One tracked product, last seen at 100 dollars, with its first sample. *)
Definition mug : product :=
  {| url := shop_url; p_title := lit "Mug"; currentPrice := Fin 100;
     p_currency := lit "$"; userId := 7 |}.

Definition one_product : store :=
  {| products := {[ 1 := mug ]};
     priceHistory := [ {| productId := 1; s_price := Fin 100 |} ];
     users := {[ 7 := {| notificationEmail := Some (lit "me@example.org") |} ]};
     outbox := [] |}.

(** Three tracked products A, B and C of one user; B's site hangs, A's page
    now says 90 and C's page 45. *)
Definition url_a : str := lit "https://shop.example/a".
Definition url_b : str := lit "https://shop.example/b".
Definition url_c : str := lit "https://shop.example/c".

Definition tracked (u : str) (t : string) (p : Q) : product :=
  {| url := u; p_title := lit t; currentPrice := Fin p; p_currency := lit "$"; userId := 7 |}.

Definition three_products : store :=
  {| products := {[ 1 := tracked url_a "A" 100; 2 := tracked url_b "B" 50;
                    3 := tracked url_c "C" 40 ]};
     priceHistory := [ {| productId := 1; s_price := Fin 100 |};
                       {| productId := 2; s_price := Fin 50 |};
                       {| productId := 3; s_price := Fin 40 |} ];
     users := {[ 7 := {| notificationEmail := Some (lit "me@example.org") |} ]};
     outbox := [] |}.

Definition b_hangs : str -> fetch_outcome :=
  fun u =>
    if str_eqb u url_b then Timeout (lit "This operation was aborted")
    else if str_eqb u url_a then serve (page [] (Some (lit "90")) (Some (lit "USD")) [] []) u
    else serve (page [] (Some (lit "45")) (Some (lit "USD")) [] []) u.

(** ** Predicates of the statements *)

(** A string of decimal digits. *)
Definition digits (s : str) : Prop := Forall (fun c => is_digit c = true) s.

(** A price-history row refers to a stored product. *)
Definition no_orphans (s : store) : Prop :=
  forall h, h ∈ priceHistory s -> is_Some (products s !! productId h).

(** In a sweep, the row of a product is updated when its own scrape gives a
    positive price and its own write goes through. *)
Definition row_updated (e : env) (row : Z * product * option str) : bool :=
  let '(id, p, _) := row in
  gt0 (sp_price (scrapePrice (web e) (url p))) && negb (write_fails e (ProductUpdate id)).

Definition updated_product (e : env) (p : product) : product :=
  with_price p (sp_price (scrapePrice (web e) (url p)))
               (sp_currency (scrapePrice (web e) (url p))).

Definition sample_of (e : env) (row : Z * product * option str) : sample :=
  let '(id, p, _) := row in
  {| productId := id; s_price := sp_price (scrapePrice (web e) (url p)) |}.

Definition row_id (row : Z * product * option str) : Z := fst (fst row).

(** An element the scanner passes over: skipped, or read as nothing positive. *)
Definition rejected (el : str) : Prop :=
  skipped (trim el) = true \/ gt0 (parseGeneric (trim el)) = false.

(** The slots after the scanner has taken [text]. *)
Definition take_hit (text : str) (st : slots) : slots :=
  sniff text (set_priceText text (set_price (parseGeneric text) st)).

(** ** Definitions for the further properties *)

(** NaN, or a number that is not negative. *)
Definition not_negative (n : num) : Prop :=
  n = NaN \/ nonneg n.

Definition block_has_product (b : ld_block) : bool :=
  match b with
  | BlockInvalid => false
  | BlockObj i => is_product i
  | BlockArr l => existsb is_product l
  end.



(** ** The other endpoints *)

(** [prisma.product.create({ data: { url, title, currentPrice, currency,
    userId, priceHistory: { create: { price } } } })]: one write.  [assigned]
    is the id the database gives the new row, [None] when the write rejects;
    an id that is already taken violates the primary key. *)
Definition product_create (assigned : option Z) (p : product) (s : store)
  : option (Z * store) :=
  match assigned with
  | None => None
  | Some id =>
      match products s !! id with
      | Some _ => None
      | None =>
          Some (id,
                {| products := <[id := p]> (products s);
                   priceHistory :=
                     priceHistory s ++ [{| productId := id; s_price := currentPrice p |}];
                   users := users s;
                   outbox := outbox s |})
      end
  end.

(** What [POST /api/products] answers: 400, the created row, or 500. *)
Inductive add_reply :=
| UrlRequired
| Created (id : Z) (p : product)
| AddFailed.

(** [POST /api/products], after the session middleware; [body_url] is the
    [url] field of the JSON body. *)
Definition add_handler (e : env) (uid : Z) (assigned : option Z)
    (body_url : option str) (s : store) : store * add_reply :=
  if is_set body_url then
    let u := default [] body_url in
    let r := scrapePrice (web e) u in
    let p := {| url := u; p_title := sp_title r; currentPrice := sp_price r;
                p_currency := sp_currency r; userId := uid |} in
    match product_create assigned p s with
    | None => (s, AddFailed)
    | Some (id, s') => (s', Created id p)
    end
  else (s, UrlRequired).

(** [GET /api/products]: the rows of the user, each with its last ten
    samples, keyed by id (the order of the answer, by [createdAt], is not
    part of the store). *)
Definition products_of (uid : Z) (s : store) : gmap Z (product * list sample) :=
  map_imap (fun id p => if userId p =? uid then Some (p, last10 id s) else None)
           (products s).

(** The body of the [cron.schedule("0 */6 * * *", ...)] job: the loop of the
    sweep, without a counter. *)
Definition job_one (e : env) (s : store) (row : Z * product * option str) : store :=
  let '(id, product, email) := row in
  let r := scrapePrice (web e) (url product) in
  if gt0 (sp_price r) then
    let oldPrice := currentPrice product in
    match product_update e id (sp_price r) (sp_currency r) s with
    | None => s
    | Some s1 =>
        if num_lt (sp_price r) oldPrice && is_set email then
          sendPriceDropEmail e
            {| m_to := default [] email; m_productTitle := p_title product;
               m_oldPrice := oldPrice; m_newPrice := sp_price r;
               m_currency := sp_currency r; m_url := url product |} s1
        else s1
    end
  else s.

Definition background_job (e : env) (s : store) : store :=
  fold_left (job_one e) (findMany s) s.

(** The mail a sweep sends for a row, and when it does. *)
Definition mail_of (e : env) (row : Z * product * option str) : mail :=
  let '(_, p, email) := row in
  {| m_to := default [] email; m_productTitle := p_title p;
     m_oldPrice := currentPrice p;
     m_newPrice := sp_price (scrapePrice (web e) (url p));
     m_currency := sp_currency (scrapePrice (web e) (url p));
     m_url := url p |}.

Definition row_mailed (e : env) (row : Z * product * option str) : bool :=
  row_updated e row &&
  num_lt (sp_price (scrapePrice (web e) (url (snd (fst row)))))
         (currentPrice (snd (fst row))) &&
  is_set (snd row) && negb (smtp_fails e (mail_of e row)).



(** Two stores with the same products, samples and outbox: they differ at
    most in user rows, which is all the session middleware writes before a
    handler runs. *)
Definition same_catalog (s s' : store) : Prop :=
  products s = products s' /\ priceHistory s = priceHistory s' /\ outbox s = outbox s'.

(** Every stored price is positive. *)
Definition positive_prices (s : store) : Prop :=
  (forall id p, products s !! id = Some p -> gt0 (currentPrice p) = true) /\
  Forall (fun h => gt0 (s_price h) = true) (priceHistory s).


(** What [POST /api/user/settings] answers: the saved address, or 500. *)
Inductive settings_reply :=
| SettingsSaved (address : option str)
| SettingsFailed.

(** [POST /api/user/settings], after the session middleware.  [field] is the
    [notificationEmail] of the JSON body: [None] when the body has none
    (Prisma leaves the column alone), [Some None] for [null].  [rejects]
    says that the write failed; it also fails when the row is missing. *)
Definition settings_handler (rejects : bool) (uid : Z) (field : option (option str))
    (s : store) : store * settings_reply :=
  match users s !! uid with
  | None => (s, SettingsFailed)
  | Some u =>
      if rejects then (s, SettingsFailed)
      else
        let u' := match field with
                  | None => u
                  | Some v => {| notificationEmail := v |}
                  end in
        ({| products := products s; priceHistory := priceHistory s;
            users := <[uid := u']> (users s); outbox := outbox s |},
         SettingsSaved (notificationEmail u'))
  end.



(** A Product whose offer is [{ price: "call us" }]. *)
Definition unpriced_product : ld_block :=
  BlockObj {| ld_type := Some (lit "Product");
              ld_name := Some (lit "Mug");
              ld_offers_of :=
                Some (OffersObj {| ld_price_of := Some (PriceStr (lit "call us"));
                                   ld_priceCurrency := None |}) |}.

(** A block that describes something else. *)
Definition breadcrumbs : ld_block :=
  BlockObj {| ld_type := Some (lit "BreadcrumbList"); ld_name := Some (lit "Home");
              ld_offers_of := None |}.

(** * Properties *)

(** ** Strings and numbers *)

Example parseFloat_plain : parseFloat (lit "1299") = Fin 1299.
Proof. reflexivity. Qed.

Example parseFloat_fraction : parseFloat (lit "3871.45") = Fin 3871.45.
Proof. reflexivity. Qed.

Example parseFloat_stops_at_second_period : parseFloat (lit "3.871.45") = Fin 3.871.
Proof. reflexivity. Qed.

Example parseFloat_negative : parseFloat (lit "-5") = Fin (-5).
Proof. reflexivity. Qed.

Example parseFloat_empty : parseFloat [] = NaN.
Proof. reflexivity. Qed.

Example parseFloat_lone_period : parseFloat (lit ".") = NaN.
Proof. reflexivity. Qed.

Example parseFloat_exponent : parseFloat (lit " 1.5e3x") = Fin 1500.0.
Proof. reflexivity. Qed.

Lemma truthy_nil (s : str) : truthy s = false <-> s = [].
Proof. destruct s; simpl; split; congruence. Qed.

Lemma truthy_cons (s : str) : truthy s = true <-> s <> [].
Proof. destruct s; simpl; split; congruence. Qed.

Lemma str_eqb_neq (a b : str) : str_eqb a b = false <-> a <> b.
Proof. unfold str_eqb. apply bool_decide_eq_false. Qed.

Lemma gt0_nonneg (n : num) : gt0 n = true -> nonneg n.
Proof.
  destruct n as [|neg|q]; simpl; try discriminate.
  - now destruct neg.
  - intros H. apply negb_true_iff in H.
    destruct (Qlt_le_dec 0 q) as [Hlt|Hle].
    + now apply Qlt_le_weak.
    + apply Qle_bool_iff in Hle. congruence.
Qed.

(** ** Currency mapping *)

Lemma mapCurrency_other (c : str) :
  c <> lit "TRY" -> c <> lit "USD" -> c <> lit "EUR" -> mapCurrency c = c.
Proof.
  intros H1 H2 H3. unfold mapCurrency.
  apply str_eqb_neq in H1, H2, H3. now rewrite H1, H2, H3.
Qed.

(** C8: the currency mapping sends TRY, USD and EUR to their symbols, leaves
    every other string as it is, and is therefore idempotent; the lira sign
    itself is left unchanged. *)
Theorem mapCurrency_table_idempotent :
  mapCurrency (lit "TRY") = LIRA /\
  mapCurrency (lit "USD") = lit "$" /\
  mapCurrency (lit "EUR") = EURO /\
  (forall c, c <> lit "TRY" -> c <> lit "USD" -> c <> lit "EUR" -> mapCurrency c = c) /\
  (forall c, mapCurrency (mapCurrency c) = mapCurrency c) /\
  mapCurrency LIRA = LIRA.
Proof.
  repeat split; try reflexivity.
  - apply mapCurrency_other.
  - intros c.
    destruct (decide (c = lit "TRY")) as [->|H1]; [reflexivity|].
    destruct (decide (c = lit "USD")) as [->|H2]; [reflexivity|].
    destruct (decide (c = lit "EUR")) as [->|H3]; [reflexivity|].
    rewrite (mapCurrency_other c) by assumption. now apply mapCurrency_other.
Qed.

Lemma mapCurrency_table_idempotent_witness :
  mapCurrency (lit "GBP") = lit "GBP".
Proof.
  apply (proj1 (proj2 (proj2 (proj2 mapCurrency_table_idempotent)))); discriminate.
Defined.

(** ** Title fallback and truncation *)

Lemma truncate_long (t : str) :
  (100 < length t)%nat ->
  truncate t = take 97 t ++ lit "..." /\ length (truncate t) = 100%nat.
Proof.
  intros H. unfold truncate, substring0.
  apply Nat.ltb_lt in H as Hb. rewrite Hb. split; [reflexivity|].
  rewrite length_app, length_take.
  change (length (lit "...")) with 3%nat. lia.
Qed.

Lemma truncate_short (t : str) : (length t <= 100)%nat -> truncate t = t.
Proof.
  intros H. unfold truncate.
  destruct (100 <? length t)%nat eqn:E; [|reflexivity].
  apply Nat.ltb_lt in E. lia.
Qed.

Lemma truncate_bound (t : str) : (length (truncate t) <= 100)%nat.
Proof.
  destruct (Nat.lt_ge_cases 100 (length t)) as [H|H].
  - apply truncate_long in H as [_ ->]. lia.
  - now rewrite truncate_short.
Qed.

(** C7: when no strategy has set a title the scraper takes the trimmed text
    of the first h1, else that of the title element, else "Unknown Product";
    a title already set is kept.  A title of more than 100 code units becomes
    its first 97 followed by "...", 100 in all; a shorter one is unchanged;
    every title the scraper returns is within 100. *)
Theorem title_fallback_and_truncation :
  (forall d st, truthy (title st) = false ->
     (trim (h1_first d) <> [] -> title (step5_title d st) = trim (h1_first d)) /\
     (trim (h1_first d) = [] -> trim (title_text d) <> [] ->
        title (step5_title d st) = trim (title_text d)) /\
     (trim (h1_first d) = [] -> trim (title_text d) = [] ->
        title (step5_title d st) = lit "Unknown Product")) /\
  (forall d st, truthy (title st) = true -> step5_title d st = st) /\
  (forall t, (100 < length t)%nat ->
     truncate t = take 97 t ++ lit "..." /\ length (truncate t) = 100%nat) /\
  (forall t, (length t <= 100)%nat -> truncate t = t) /\
  (forall url d,
     title (extract url d) =
     truncate (title (step5_title d
       (step4_trendyol url d (step4_amazon url d
         (step3_selectors d (step2_meta d (step1_jsonld init (ld_json d))))))))) /\
  (forall w url t p c r, scrapeProductData w url = Scraped t p c r -> (length t <= 100)%nat).
Proof.
  split; [|split; [|split; [|split; [|split]]]].
  - intros d st Hst. unfold step5_title. rewrite Hst.
    repeat split.
    + intros H. apply truthy_cons in H. now rewrite H.
    + intros H1 H2. apply truthy_nil in H1. apply truthy_cons in H2. now rewrite H1, H2.
    + intros H1 H2. apply truthy_nil in H1, H2. now rewrite H1, H2.
  - intros d st Hst. unfold step5_title. now rewrite Hst.
  - apply truncate_long.
  - apply truncate_short.
  - intros url d. unfold extract, step5_price.
    destruct (is0 _); [|reflexivity].
    simpl. f_equal.
    generalize (price_like d). intros els.
    set (st := step5_title _ _). clearbody st.
    induction els as [|el r IH] in st |- *; [reflexivity|].
    simpl. destruct (skipped _); [apply IH|].
    destruct (gt0 _); [|apply IH].
    unfold sniff. repeat destruct (includes _ _); reflexivity.
  - intros w url t p c r. unfold scrapeProductData.
    destruct (w url) as [m|m|[] st [m|d]]; unfold caught; try discriminate.
    intros [= <- _ _ _]. unfold extract. simpl. apply truncate_bound.
Qed.

Lemma title_fallback_and_truncation_witness :
  truncate (repeat 97%N 120) = take 97 (repeat 97%N 120) ++ lit "..." /\
  length (truncate (repeat 97%N 120)) = 100%nat.
Proof.
  apply (proj1 (proj2 (proj2 title_fallback_and_truncation))). simpl. lia.
Defined.

(** ** The fallback scanner *)

Lemma skipped_spec (text : str) :
  skipped text = true <->
  includes (lit "%") text = true \/ (length text < 2)%nat \/ (20 < length text)%nat.
Proof.
  unfold skipped. rewrite !orb_true_iff, !Nat.ltb_lt. tauto.
Qed.

Lemma scan_rejected (st : slots) (pre rest : list str) :
  Forall rejected pre -> scan st (pre ++ rest) = scan st rest.
Proof.
  induction 1 as [|el pre [Hs|Hp] _ IH]; simpl; [reflexivity| |].
  - now rewrite Hs.
  - rewrite Hp. now destruct (skipped _).
Qed.

Lemma scan_first_hit (st : slots) (pre : list str) (el : str) (post : list str) :
  Forall rejected pre ->
  skipped (trim el) = false ->
  gt0 (parseGeneric (trim el)) = true ->
  scan st (pre ++ el :: post) = take_hit (trim el) st.
Proof.
  intros Hpre Hskip Hpos. rewrite scan_rejected by assumption.
  simpl. now rewrite Hskip, Hpos.
Qed.

Lemma sniff_keeps (t : str) (st : slots) :
  title (sniff t st) = title st /\ price (sniff t st) = price st /\
  priceText (sniff t st) = priceText st.
Proof. unfold sniff. repeat destruct (includes _ _); repeat split. Qed.

Lemma sniff_currency (t : str) (st : slots) :
  currency (sniff t st) =
  if includes (lit "$") t then lit "$"
  else if includes EURO t then EURO
  else if includes (lit "TL") t || includes LIRA t then LIRA
  else currency st.
Proof.
  unfold sniff. change DOLLAR with (lit "$").
  repeat destruct (includes _ _); reflexivity.
Qed.

(** C9: the fallback scanner runs only when the price is still 0; it goes
    through the texts of the price-like elements in order, passes over those
    with a percent sign or a length outside 2..20 and those that do not read
    as a positive number, takes the first other one (price, raw text, and the
    currency its symbol shows, if any) and looks no further. *)
Theorem fallback_scanner_first_hit (d : document) (st : slots) :
  (is0 (price st) = false -> step5_price d st = st) /\
  (is0 (price st) = true ->
   forall pre el post,
     price_like d = pre ++ el :: post ->
     Forall rejected pre ->
     skipped (trim el) = false ->
     gt0 (parseGeneric (trim el)) = true ->
     price (step5_price d st) = parseGeneric (trim el) /\
     priceText (step5_price d st) = trim el /\
     title (step5_price d st) = title st /\
     currency (step5_price d st) =
       (if includes (lit "$") (trim el) then lit "$"
        else if includes EURO (trim el) then EURO
        else if includes (lit "TL") (trim el) || includes LIRA (trim el) then LIRA
        else currency st)) /\
  (is0 (price st) = true -> Forall rejected (price_like d) -> step5_price d st = st) /\
  (forall text,
     skipped text = true <->
     includes (lit "%") text = true \/ (length text < 2)%nat \/ (20 < length text)%nat).
Proof.
  unfold step5_price. split; [now intros ->|]. split; [|split].
  - intros -> pre el post Hd Hpre Hskip Hpos.
    rewrite Hd, (scan_first_hit st pre el post Hpre Hskip Hpos).
    unfold take_hit. rewrite sniff_currency.
    destruct (sniff_keeps (trim el)
                (set_priceText (trim el) (set_price (parseGeneric (trim el)) st)))
      as (-> & -> & ->).
    repeat split.
  - intros -> Hall. rewrite <- (app_nil_r (price_like d)).
    now rewrite scan_rejected.
  - apply skipped_spec.
Qed.

Lemma fallback_scanner_first_hit_witness :
  let d := page [] None None [] [lit "25% off"; lit " $19.99 "; lit "$5"] in
  price (step5_price d init) = Fin 19.99 /\
  priceText (step5_price d init) = lit "$19.99" /\
  title (step5_price d init) = [] /\
  currency (step5_price d init) = lit "$".
Proof.
  intros d.
  apply (proj1 (proj2 (fallback_scanner_first_hit d init)) eq_refl
           [lit "25% off"] (lit " $19.99 ") [lit "$5"] eq_refl).
  - repeat constructor.
  - reflexivity.
  - reflexivity.
Defined.

(** ** Numeric normalisation *)

Example offscreen_both_separators : parseOffscreen (lit "3.871,45") = Fin 3871.45.
Proof. reflexivity. Qed.

Example offscreen_comma_only : parseOffscreen (lit "12,99") = Fin 12.99.
Proof. reflexivity. Qed.

Example offscreen_plain : parseOffscreen (lit "1299") = Fin 1299.
Proof. reflexivity. Qed.

Example generic_comma_only : parseGeneric (lit "12,99") = Fin 12.99.
Proof. reflexivity. Qed.

Example generic_plain : parseGeneric (lit "1299") = Fin 1299.
Proof. reflexivity. Qed.

(** With two commas the offscreen branch turns the first one into the
    decimal point, and [parseFloat] stops at the second. *)
Example offscreen_two_commas : parseOffscreen (lit "1,234,567.89") = Fin 1.234.
Proof. reflexivity. Qed.

(** *** Grouped decimals

    A text [a.b,c] of digits (thousands separated by a period, decimals by a
    comma) is read in full by the offscreen branch, while the expression
    used everywhere else reads [a.b] and stops. *)

Lemma digit_facts (c : cu) :
  is_digit c = true ->
  is_ws c = false /\ (c =? 44)%N = false /\ (c =? 46)%N = false /\
  (c =? 45)%N = false /\ (c =? 43)%N = false /\ (c =? 73)%N = false.
Proof.
  unfold is_digit, is_ws. intros H. apply andb_true_iff in H as [H1 H2].
  apply N.leb_le in H1, H2.
  repeat split;
    repeat (apply orb_false_iff; split);
    try (apply andb_false_iff; (left; apply N.leb_gt; lia) || (right; apply N.leb_gt; lia));
    try (apply N.eqb_neq; lia).
Qed.












(** C3: the rule for a text with both separators lives in the Amazon
    offscreen branch only.  The expression used for meta tags, span.price,
    .prc-dsc and the fallback scanner keeps the periods, so "3.871,45" in a
    [product:price:amount] meta tag is read as 3.871, where the offscreen
    branch reads 3871.45. *)
Theorem generic_parse_keeps_periods :
  parseGeneric (lit "3.871,45") = Fin 3.871 /\
  parseOffscreen (lit "3.871,45") = Fin 3871.45 /\
  price (extract shop_url (page [] (Some (lit "3.871,45")) None [] [])) = Fin 3.871 /\
  price (extract shop_url (page [] None None [] [lit "3.871,45 TL"])) = Fin 3.871.
Proof. repeat split; reflexivity. Qed.

(** ** Which strategy wins a slot *)

(** JSON-LD with price "12.99" and priceCurrency "USD". *)
Example jsonld_usd :
  price (extract shop_url (page [usd_product] None None [] [])) = Fin 12.99 /\
  currency (extract shop_url (page [usd_product] None None [] [])) = lit "$" /\
  title (extract shop_url (page [usd_product] None None [] [])) = lit "Mug".
Proof. repeat split. Qed.

Lemma scan_keeps_title (st : slots) (els : list str) : title (scan st els) = title st.
Proof.
  induction els as [|el r IH]; simpl; [reflexivity|].
  destruct (skipped _); [exact IH|].
  destruct (gt0 _); [|exact IH].
  now rewrite (proj1 (sniff_keeps _ _)).
Qed.





Lemma step5_price_keeps_title d st : title (step5_price d st) = title st.
Proof. unfold step5_price. destruct (is0 _); [apply scan_keeps_title|reflexivity]. Qed.





















(** ** The price of a result *)

(** A meta price without a digit reads as NaN, and the result carries 0. *)
Example nan_becomes_zero :
  price (extract shop_url (page [] (Some (lit "call us")) None [] [])) = NaN /\
  scrapeProductData (serve (page [] (Some (lit "call us")) None [] [])) shop_url =
    Scraped (lit "Unknown Product") ZERO LIRA [].
Proof. split; reflexivity. Qed.




(** ** Fetch failures *)

(** C2 (as the code has it): a fetch that times out, fails on the network or
    answers with a non-2xx status makes [scrapeProductData] resolve to a
    failure with a message, whatever the body of the response holds;
    [scrapePrice] then turns that failure into price 0, title
    "Unknown Product" and currency "₺". *)
Theorem fetch_failure_reported_then_zeroed (w : str -> fetch_outcome) (url : str) :
  fetch_failed (w url) ->
  success (scrapeProductData w url) = false /\
  (exists message, message <> [] /\ scrapeProductData w url = Failed message) /\
  (forall statusText b, w url = Response false statusText b ->
     scrapeProductData w url = Failed (lit "Failed to fetch URL: " ++ statusText)) /\
  scrapePrice w url = {| sp_price := ZERO; sp_title := lit "Unknown Product";
                         sp_currency := LIRA |}.
Proof.
  intros Hf.
  assert (exists message, message <> [] /\ scrapeProductData w url = Failed message) as Hm.
  { unfold scrapeProductData, caught.
    destruct (w url) as [m|m|ok st b]; simpl in Hf.
    - destruct m; eexists; (split; [|reflexivity]); discriminate.
    - destruct m; eexists; (split; [|reflexivity]); discriminate.
    - subst ok. eexists; (split; [|reflexivity]); discriminate. }
  destruct Hm as (m & Hne & Hm).
  split; [|split; [|split]].
  - now rewrite Hm.
  - now exists m.
  - intros statusText b Hw. unfold scrapeProductData. now rewrite Hw.
  - unfold scrapePrice. now rewrite Hm.
Qed.

Lemma fetch_failure_reported_then_zeroed_witness :
  success (scrapeProductData hang shop_url) = false /\
  (exists message, message <> [] /\ scrapeProductData hang shop_url = Failed message) /\
  (forall statusText b, hang shop_url = Response false statusText b ->
     scrapeProductData hang shop_url = Failed (lit "Failed to fetch URL: " ++ statusText)) /\
  scrapePrice hang shop_url = {| sp_price := ZERO; sp_title := lit "Unknown Product";
                                 sp_currency := LIRA |}.
Proof. apply (fetch_failure_reported_then_zeroed hang shop_url). exact I. Defined.

(** C2, as stated, fails: after a timeout the caller of [scrapePrice] holds
    price 0 and the default title, the very value a successful fetch of a
    page without any product data gives. *)
Lemma timeout_looks_like_empty_page :
  fetch_failed (hang shop_url) /\
  scrapePrice hang shop_url =
    {| sp_price := ZERO; sp_title := lit "Unknown Product"; sp_currency := LIRA |} /\
  success (scrapeProductData (serve blank) shop_url) = true /\
  scrapePrice hang shop_url = scrapePrice (serve blank) shop_url.
Proof. repeat split. Qed.

(** ** A check that finds no price *)

Lemma findFirst_None (id uid : Z) (s : store) :
  findFirst id uid s = None <->
  products s !! id = None \/ exists p, products s !! id = Some p /\ userId p <> uid.
Proof.
  unfold findFirst. destruct (products s !! id) as [p|]; [|tauto].
  destruct (Z.eqb_spec (userId p) uid) as [E|E]; split.
  - discriminate.
  - intros [H|(q & [= <-] & H)]; congruence.
  - intros _. right. now exists p.
  - reflexivity.
Qed.

Lemma findFirst_Some (id uid : Z) (s : store) (p : product) :
  products s !! id = Some p -> userId p = uid -> findFirst id uid s = Some p.
Proof.
  intros H <-. unfold findFirst. now rewrite H, Z.eqb_refl.
Qed.

(** In the sweep a product without a positive price is left as it is. *)
Lemma check_one_without_price (e : env) (s : store) (n : nat)
    (id : Z) (p : product) (email : option str) :
  gt0 (sp_price (scrapePrice (web e) (url p))) = false ->
  check_one e (s, n) (id, p, email) = (s, n).
Proof. intros H. unfold check_one. now rewrite H. Qed.

Lemma sweep_without_price (e : env) (rows : list (Z * product * option str)) (s : store) :
  Forall (fun row => gt0 (sp_price (scrapePrice (web e) (url (snd (fst row))))) = false) rows ->
  sweep e rows s = (s, 0%nat).
Proof.
  intros Hall. unfold sweep. generalize 0%nat.
  induction Hall as [|[[id p] email] rows H _ IH]; intros n; [reflexivity|].
  simpl in H. cbn [fold_left]. rewrite check_one_without_price by exact H. apply IH.
Qed.

(** The manual check of an owned product stores whatever [scrapePrice]
    returned, 0 included, and appends it to the history. *)
Lemma check_handler_owner (e : env) (uid id : Z) (s : store) (p : product) :
  products s !! id = Some p -> userId p = uid ->
  write_fails e (ProductUpdate id) = false ->
  exists s',
    check_handler e uid id s = (s', Updated (updated_product e p) (last10 id s')) /\
    products s' !! id = Some (updated_product e p) /\
    priceHistory s' = priceHistory s ++ [sample_of e (id, p, None)].
Proof.
  intros Hp Hu Hw. unfold check_handler, product_update.
  rewrite (findFirst_Some id uid s p Hp Hu), Hw, Hp.
  eexists. split; [reflexivity|]. split; [apply lookup_insert_eq|reflexivity].
Qed.

(** C1: the sweep leaves a product alone when the check finds no price, but
    the manual check has no such guard.  With a stored price of 100 dollars,
    a check of a page without any price writes price 0 and appends a sample
    at 0; a check whose fetch times out does the same and also replaces the
    stored currency by the default. *)
Theorem manual_check_overwrites_with_zero :
  currentPrice <$> products one_product !! 1 = Some (Fin 100) /\
  sp_price (scrapePrice (serve blank) shop_url) = ZERO /\
  (let s' := fst (check_handler (calm (serve blank)) 7 1 one_product) in
   currentPrice <$> products s' !! 1 = Some ZERO /\
   priceHistory s' = [ {| productId := 1; s_price := Fin 100 |};
                       {| productId := 1; s_price := ZERO |} ]) /\
  (let s' := fst (check_handler (calm hang) 7 1 one_product) in
   products s' !! 1 =
     Some {| url := shop_url; p_title := lit "Mug"; currentPrice := ZERO;
             p_currency := LIRA; userId := 7 |} /\
   priceHistory s' = [ {| productId := 1; s_price := Fin 100 |};
                       {| productId := 1; s_price := ZERO |} ]) /\
  cron_check (calm (serve blank)) one_product = (one_product, Swept 0) /\
  cron_check (calm hang) one_product = (one_product, Swept 0).
Proof. repeat split; vm_compute; reflexivity. Qed.

(** ** Ownership and deletion *)

Lemma elem_of_history_filter (id : Z) (l : list sample) (h : sample) :
  h ∈ List.filter (fun h => negb (productId h =? id)) l <-> h ∈ l /\ productId h <> id.
Proof.
  rewrite !list_elem_of_In, filter_In, negb_true_iff, Z.eqb_neq. tauto.
Qed.

(** C10: a check or a delete for an id that is not stored, or that belongs
    to another user, answers 404 and leaves the whole store as it was.  A
    delete by the owner, when both writes go through, removes the samples of
    the product and then the product; and since the samples go first, no
    outcome of the two writes leaves a sample without its product. *)
Theorem check_and_delete_scoped_to_owner :
  (forall e uid id s,
     products s !! id = None \/ (exists p, products s !! id = Some p /\ userId p <> uid) ->
     check_handler e uid id s = (s, NotFound) /\
     delete_handler e uid id s = (s, NotFound)) /\
  (forall e uid id s p,
     products s !! id = Some p -> userId p = uid ->
     write_fails e (HistoryDeleteMany id) = false ->
     write_fails e (ProductDelete id) = false ->
     exists s1 s2,
       history_deleteMany e id s = Some s1 /\
       product_delete e id s1 = Some s2 /\
       delete_handler e uid id s = (s2, Deleted) /\
       products s1 = products s /\
       (forall h, h ∈ priceHistory s1 -> productId h <> id) /\
       products s2 = delete id (products s) /\
       priceHistory s2 =
         List.filter (fun h => negb (productId h =? id)) (priceHistory s) /\
       (forall h, h ∈ priceHistory s2 -> productId h <> id) /\
       users s2 = users s /\ outbox s2 = outbox s) /\
  (forall e uid id s, no_orphans s -> no_orphans (fst (delete_handler e uid id s))).
Proof.
  split; [|split].
  - intros e uid id s H. apply findFirst_None in H.
    unfold check_handler, delete_handler. now rewrite H.
  - intros e uid id s p Hp Hu Hw1 Hw2.
    set (s1 := {| products := products s;
                  priceHistory :=
                    List.filter (fun h => negb (productId h =? id)) (priceHistory s);
                  users := users s; outbox := outbox s |}).
    set (s2 := {| products := delete id (products s);
                  priceHistory := priceHistory s1;
                  users := users s; outbox := outbox s |}).
    assert (history_deleteMany e id s = Some s1) as H1
      by (unfold history_deleteMany; now rewrite Hw1).
    assert (product_delete e id s1 = Some s2) as H2
      by (unfold product_delete; simpl; now rewrite Hw2, Hp).
    exists s1, s2. split; [exact H1|]. split; [exact H2|]. split.
    { unfold delete_handler. now rewrite (findFirst_Some id uid s p Hp Hu), H1, H2. }
    simpl. repeat split; intros h Hh; now apply elem_of_history_filter in Hh.
  - intros e uid id s Hs. unfold no_orphans in *. unfold delete_handler.
    destruct (findFirst id uid s) as [p|]; [|exact Hs].
    unfold history_deleteMany.
    destruct (write_fails e (HistoryDeleteMany id)); [exact Hs|].
    unfold product_delete. simpl.
    destruct (write_fails e (ProductDelete id)); simpl.
    + intros h Hh. apply elem_of_history_filter in Hh as [Hh _]. now apply Hs.
    + destruct (products s !! id); simpl.
      * intros h Hh. apply elem_of_history_filter in Hh as [Hh Hne]. simpl.
        rewrite lookup_delete_ne by congruence. now apply Hs.
      * intros h Hh. apply elem_of_history_filter in Hh as [Hh _]. now apply Hs.
Qed.

Lemma check_and_delete_scoped_to_owner_witness :
  check_handler (calm (serve blank)) 8 1 one_product = (one_product, NotFound) /\
  delete_handler (calm (serve blank)) 8 1 one_product = (one_product, NotFound).
Proof.
  apply (proj1 check_and_delete_scoped_to_owner).
  right. exists mug. split; [reflexivity|]. simpl. lia.
Defined.

(** The owner's delete on the sample store: nothing is left of product 1. *)
Example owner_delete :
  let s' := fst (delete_handler (calm hang) 7 1 one_product) in
  snd (delete_handler (calm hang) 7 1 one_product) = Deleted /\
  products s' !! 1 = None /\ priceHistory s' = [].
Proof. repeat split. Qed.

(** ** The sweep *)

Section Sweep.

Variable e : env.

Lemma sendPriceDropEmail_keeps (m : mail) (s : store) :
  products (sendPriceDropEmail e m s) = products s /\
  priceHistory (sendPriceDropEmail e m s) = priceHistory s /\
  users (sendPriceDropEmail e m s) = users s.
Proof.
  unfold sendPriceDropEmail. destruct (truthy _); [destruct (smtp_fails _ _)|]; repeat split.
Qed.

(** One turn of the loop, by cases on [row_updated]. *)
Lemma check_one_spec (s : store) (n : nat) (id : Z) (p : product)
    (email : option str) :
  products s !! id = Some p ->
  exists s',
    check_one e (s, n) (id, p, email) =
      (s', if row_updated e (id, p, email) then S n else n) /\
    products s' =
      (if row_updated e (id, p, email)
       then <[id := updated_product e p]> (products s) else products s) /\
    priceHistory s' =
      priceHistory s ++
      (if row_updated e (id, p, email) then [sample_of e (id, p, email)] else []) /\
    users s' = users s.
Proof.
  intros Hp. unfold check_one, row_updated, product_update.
  destruct (gt0 _) eqn:Hg; simpl.
  - destruct (write_fails e (ProductUpdate id)); simpl.
    + exists s. now rewrite app_nil_r.
    + rewrite Hp. eexists. split; [reflexivity|].
      destruct (num_lt _ _ && is_set email); [|repeat split].
      match goal with
      | |- context [sendPriceDropEmail e ?m ?s0] =>
          destruct (sendPriceDropEmail_keeps m s0) as (-> & -> & ->)
      end.
      repeat split.
  - exists s. now rewrite app_nil_r.
Qed.

Lemma sweep_acc (rows : list (Z * product * option str)) :
  forall (s : store) (n : nat),
    NoDup (map row_id rows) ->
    (forall id p email, (id, p, email) ∈ rows -> products s !! id = Some p) ->
    exists s',
      fold_left (check_one e) rows (s, n) =
        (s', (n + length (List.filter (row_updated e) rows))%nat) /\
      priceHistory s' =
        priceHistory s ++ map (sample_of e) (List.filter (row_updated e) rows) /\
      users s' = users s /\
      (forall id p email, (id, p, email) ∈ rows ->
         products s' !! id =
           Some (if row_updated e (id, p, email) then updated_product e p else p)) /\
      (forall id, id ∉ map row_id rows -> products s' !! id = products s !! id).
Proof.
  induction rows as [|[[id p] email] rows IH]; intros s n Hnd Hrows.
  - exists s. simpl. rewrite Nat.add_0_r, app_nil_r. repeat split.
    intros id p email H. now apply elem_of_nil in H.
  - cbn [map row_id fst] in Hnd. apply NoDup_cons in Hnd as [Hid Hnd].
    destruct (check_one_spec s n id p email) as (s1 & Hstep & Hprod & Hhist & Husers).
    { apply (Hrows id p email). left. }
    cbn [fold_left]. rewrite Hstep.
    assert (forall j, j <> id -> products s1 !! j = products s !! j) as Hother.
    { intros j Hj. rewrite Hprod. destruct (row_updated _ _); [|reflexivity].
      now rewrite lookup_insert_ne. }
    destruct (IH s1 (if row_updated e (id, p, email) then S n else n) Hnd)
      as (s' & Hfold & Hh' & Hu' & Hin & Hout).
    { intros j q em Hj. rewrite Hother; [apply (Hrows j q em); now right|].
      intros ->. apply Hid. apply list_elem_of_fmap. now exists (id, q, em). }
    exists s'. split; [|split; [|split; [|split]]].
    + rewrite Hfold. f_equal. cbn [List.filter].
      destruct (row_updated e (id, p, email)); simpl; lia.
    + rewrite Hh', Hhist. cbn [List.filter].
      destruct (row_updated e (id, p, email)); simpl; now rewrite <- app_assoc.
    + congruence.
    + intros j q em Hj. apply elem_of_cons in Hj as [[= -> -> ->]|Hj]; [|now apply Hin].
      rewrite Hout by exact Hid. rewrite Hprod.
      destruct (row_updated _ _); [apply lookup_insert_eq|apply (Hrows id p email); left].
    + intros j Hj. cbn [map row_id fst] in Hj. apply not_elem_of_cons in Hj as [Hj1 Hj2].
      rewrite Hout by exact Hj2. now apply Hother.
Qed.

End Sweep.

Lemma findMany_rows (s : store) :
  NoDup (map row_id (findMany s)) /\
  (forall id p email, (id, p, email) ∈ findMany s <->
     products s !! id = Some p /\ email = owner_email s p).
Proof.
  unfold findMany. split.
  - assert (forall l : list (Z * product),
              map row_id (map (fun '(id, p) => (id, p, owner_email s p)) l) = l.*1) as E.
    { induction l as [|[id p] l IH]; [reflexivity|]. simpl. now rewrite IH. }
    rewrite E. apply NoDup_fst_map_to_list.
  - intros id p email. rewrite list_elem_of_fmap. split.
    + intros ([j q] & [= -> -> ->] & H). now apply elem_of_map_to_list in H.
    + intros [H ->]. exists (id, p). split; [reflexivity|]. now apply elem_of_map_to_list.
Qed.

Lemma scrapePrice_local (w1 w2 : str -> fetch_outcome) (u : str) :
  w1 u = w2 u -> scrapePrice w1 u = scrapePrice w2 u.
Proof. intros H. unfold scrapePrice, scrapeProductData. now rewrite H. Qed.

(** C5: the sweep treats every product on its own.  What it leaves stored
    for a product is decided by that product's own fetch and own write: the
    product is updated when its scrape gives a positive price and its write
    goes through, and is left as it was otherwise, whatever happens to the
    others; one sample is appended per updated product, and the count the
    sweep reports is the number of updated products. *)
Theorem cron_check_isolated_and_counted (e : env) (s : store) :
  exists s',
    cron_check e s = (s', Swept (length (List.filter (row_updated e) (findMany s)))) /\
    (forall id p, products s !! id = Some p ->
       products s' !! id =
         Some (if row_updated e (id, p, owner_email s p) then updated_product e p else p)) /\
    (forall id, products s !! id = None -> products s' !! id = None) /\
    priceHistory s' =
      priceHistory s ++ map (sample_of e) (List.filter (row_updated e) (findMany s)) /\
    users s' = users s /\
    (forall e2 id p,
       products s !! id = Some p ->
       web e2 (url p) = web e (url p) ->
       write_fails e2 (ProductUpdate id) = write_fails e (ProductUpdate id) ->
       products (fst (cron_check e2 s)) !! id = products s' !! id).
Proof.
  assert (forall e0, exists s0,
    cron_check e0 s = (s0, Swept (length (List.filter (row_updated e0) (findMany s)))) /\
    (forall id p, products s !! id = Some p ->
       products s0 !! id =
         Some (if row_updated e0 (id, p, owner_email s p) then updated_product e0 p else p)) /\
    (forall id, products s !! id = None -> products s0 !! id = None) /\
    priceHistory s0 =
      priceHistory s ++ map (sample_of e0) (List.filter (row_updated e0) (findMany s)) /\
    users s0 = users s) as Hchar.
  { intros e0. destruct (findMany_rows s) as [Hnd Hrows].
    destruct (sweep_acc e0 (findMany s) s 0%nat Hnd) as (s0 & Hfold & Hh & Hu & Hin & Hout).
    { intros id p email H. now apply Hrows in H. }
    exists s0. split; [|split; [|split; [|split]]].
    - unfold cron_check, sweep. now rewrite Hfold.
    - intros id p Hp. apply (Hin id p (owner_email s p)). now apply Hrows.
    - intros id Hid. rewrite Hout; [exact Hid|].
      intros Hj. apply list_elem_of_fmap in Hj as ([[j q] em] & -> & Hj).
      apply Hrows in Hj as [Hj _]. unfold row_id in Hid. simpl in Hid. congruence.
    - exact Hh.
    - exact Hu. }
  destruct (Hchar e) as (s' & Hc & Hp & Hn & Hh & Hu).
  exists s'. repeat split; try assumption.
  intros e2 id p Hid Hweb Hw.
  destruct (Hchar e2) as (s2 & Hc2 & Hp2 & _).
  rewrite Hc2. simpl. rewrite (Hp2 id p Hid), (Hp id p Hid).
  unfold row_updated, updated_product.
  now rewrite (scrapePrice_local _ _ _ Hweb), Hw.
Qed.

(** Three products, the second one's fetch timing out: the first and the
    third are updated, the second is untouched, and the sweep reports 2. *)
Lemma cron_check_isolated_and_counted_witness :
  exists s',
    cron_check (calm b_hangs) three_products = (s', Swept 2) /\
    products s' !! 1 =
      Some {| url := url_a; p_title := lit "A"; currentPrice := Fin 90;
              p_currency := lit "$"; userId := 7 |} /\
    products s' !! 2 = Some (tracked url_b "B" 50) /\
    products s' !! 3 =
      Some {| url := url_c; p_title := lit "C"; currentPrice := Fin 45;
              p_currency := lit "$"; userId := 7 |}.
Proof.
  destruct (cron_check_isolated_and_counted (calm b_hangs) three_products)
    as (s' & Hc & Hp & _).
  exists s'. split; [exact Hc|]. split; [|split].
  - exact (Hp 1 (tracked url_a "A" 100) eq_refl).
  - exact (Hp 2 (tracked url_b "B" 50) eq_refl).
  - exact (Hp 3 (tracked url_c "C" 40) eq_refl).
Defined.

(** The same sweep, run: samples for A and C, one mail for the drop of A. *)
Example sweep_three_products :
  let s' := fst (cron_check (calm b_hangs) three_products) in
  snd (cron_check (calm b_hangs) three_products) = Swept 2 /\
  currentPrice <$> products s' !! 1 = Some (Fin 90) /\
  currentPrice <$> products s' !! 2 = Some (Fin 50) /\
  currentPrice <$> products s' !! 3 = Some (Fin 45) /\
  length (priceHistory s') = 5%nat /\
  map m_productTitle (outbox s') = [lit "A"].
Proof. vm_compute. repeat split. Qed.

(** * Further properties *)

(** ** Reading numbers *)

Lemma span_digits_spec (s : str) :
  digits (fst (span_digits s)) /\ s = fst (span_digits s) ++ snd (span_digits s).
Proof.
  induction s as [|c s [IH1 IH2]]; simpl; [split; [constructor|reflexivity]|].
  destruct (is_digit c) eqn:E; [|split; [constructor|reflexivity]].
  destruct (span_digits s) as [d t]. simpl in *. split.
  - now constructor.
  - now rewrite <- IH2.
Qed.

Lemma digits_value_acc (ds : str) (acc : Z) :
  digits ds -> 0 <= acc ->
  0 <= fold_left (fun a c => 10 * a + (Z.of_N c - 48)) ds acc.
Proof.
  intros Hd. revert acc. induction Hd as [|c ds Hc _ IH]; intros acc Hacc; simpl; [exact Hacc|].
  apply IH. unfold is_digit in Hc. apply andb_true_iff in Hc as [H1 _].
  apply N.leb_le in H1. lia.
Qed.

Lemma digits_value_nonneg (ds : str) : digits ds -> 0 <= digits_value ds.
Proof. intros H. unfold digits_value. now apply digits_value_acc. Qed.

Lemma unsigned_decimal_nonneg (s : str) (q : Q) :
  unsigned_decimal s = Some q -> (0 <= q)%Q.
Proof.
  unfold unsigned_decimal.
  destruct (span_digits_spec s) as [Hip _].
  destruct (span_digits s) as [ip r1]. simpl in Hip.
  assert (forall r, digits (fst (span_digits r))) as Hsp by (intros r; apply span_digits_spec).
  assert (digits (fst (match r1 with
                       | c :: r => if (c =? 46)%N then span_digits r else ([], r1)
                       | [] => ([], r1)
                       end))) as Hfp.
  { destruct r1 as [|c r]; [constructor|]. destruct (c =? 46)%N; [apply Hsp|constructor]. }
  destruct (match r1 with
            | c :: r => if (c =? 46)%N then span_digits r else ([], r1)
            | [] => ([], r1)
            end) as [fp r2]. simpl in Hfp.
  assert (forall e, (0 <= digits_value (ip ++ fp) * 10 ^ Z.max e 0
                          # pow10 (Z.of_nat (length fp)) * pow10 (Z.max (- e) 0))%Q) as Hq.
  { intros e. unfold Qle. simpl.
    assert (0 <= digits_value (ip ++ fp)) by (apply digits_value_nonneg, Forall_app; tauto).
    assert (0 <= 10 ^ Z.max e 0) by (apply Z.pow_nonneg; lia).
    nia. }
  destruct ip, fp; try discriminate; intros [= <-]; apply Hq.
Qed.

Lemma parseFloat_not_negative (u : str) :
  match u with
  | [] => True
  | c :: _ => is_ws c = false /\ (c =? 45)%N = false /\ (c =? 43)%N = false /\
              (c =? 73)%N = false
  end ->
  not_negative (parseFloat u).
Proof.
  intros H. unfold parseFloat. destruct u as [|c u].
  - left. reflexivity.
  - destruct H as (Hws & Hm & Hp & HI). cbn [trimStart]. rewrite Hws, Hm, Hp.
    change (startsWith INFINITY (c :: u))
      with ((73 =? c)%N && startsWith (lit "nfinity") u).
    rewrite N.eqb_sym, HI. cbn [andb].
    destruct (unsigned_decimal (c :: u)) as [q|] eqn:E; [right|now left].
    cbn [nonneg]. now apply unsigned_decimal_nonneg in E.
Qed.

Lemma cls_price_head (c : cu) :
  cls_price c = true ->
  is_ws c = false /\ (c =? 45)%N = false /\ (c =? 43)%N = false /\ (c =? 73)%N = false.
Proof.
  unfold cls_price. rewrite !orb_true_iff. intros [[H|H]|H].
  - destruct (digit_facts c H) as (? & _ & _ & ? & ? & ?). tauto.
  - apply N.eqb_eq in H as ->. repeat split.
  - apply N.eqb_eq in H as ->. repeat split.
Qed.

Lemma replaceComma_cls (s : str) :
  Forall (fun c => cls_price c = true) s ->
  Forall (fun c => cls_price c = true) (replaceComma s).
Proof.
  induction 1 as [|c s Hc Hs IH]; simpl; [constructor|].
  destruct (c =? 44)%N; constructor; auto.
Qed.

Lemma parseGeneric_clean (t : str) : not_negative (parseGeneric t).
Proof.
  unfold parseGeneric. apply parseFloat_not_negative.
  assert (Forall (fun c => cls_price c = true) (replaceComma (keep cls_price t))) as H.
  { apply replaceComma_cls. unfold keep. apply List.Forall_forall.
    intros c Hc. now apply filter_In in Hc. }
  destruct H as [|c u Hc _]; [exact I|]. now apply cls_price_head.
Qed.

(** X1: the expression used for meta tags, span.price, .prc-dsc and the
    fallback scanner never yields a negative number: for every text it gives
    NaN or a number that is at least 0, and a minus sign in front of the
    text is dropped like any other character. *)
Theorem parseGeneric_not_negative (t : str) :
  not_negative (parseGeneric t) /\ parseGeneric (lit "-" ++ t) = parseGeneric t.
Proof.
  split; [apply parseGeneric_clean|reflexivity].
Qed.




(** *** Unsigned prices through the steps *)










(** *** JSON-LD *)

Lemma ld_item_step_not_product st it : is_product it = false -> ld_item_step st it = (st, Next).
Proof. intros H. unfold ld_item_step. now rewrite H. Qed.

Lemma ld_items_no_product st l :
  existsb is_product l = false -> ld_items st l = (st, false).
Proof.
  induction l as [|it l IH]; [reflexivity|]. simpl.
  intros H. apply orb_false_iff in H as [H1 H2].
  rewrite (ld_item_step_not_product st it H1). now apply IH.
Qed.

(** X6: JSON-LD blocks that are malformed or hold no item typed Product
    leave title, price, raw text and currency as they were. *)
Theorem jsonld_without_product_changes_nothing (st : slots) (bs : list ld_block) :
  Forall (fun b => block_has_product b = false) bs -> step1_jsonld st bs = st.
Proof.
  induction 1 as [|b bs Hb _ IH]; [reflexivity|]. simpl.
  destruct b as [|i|l]; simpl in *.
  - exact IH.
  - rewrite (ld_item_step_not_product st i Hb). exact IH.
  - rewrite (ld_items_no_product st l Hb). exact IH.
Qed.

Lemma jsonld_without_product_changes_nothing_witness :
  step1_jsonld init [BlockInvalid; breadcrumbs; BlockArr [] ] = init.
Proof.
  apply (jsonld_without_product_changes_nothing init).
  repeat constructor.
Defined.

(** The loop goes on only while the price is not positive. *)
Lemma ld_item_step_price st it st' sg :
  ld_item_step st it = (st', sg) ->
  gt0 (price st) = false ->
  match sg with ReturnFalse => gt0 (price st') = true | _ => gt0 (price st') = false end.
Proof.
  unfold ld_item_step. destruct (is_product it); [|now intros [= <- <-]].
  set (st1 := match ld_name it with Some n => _ | None => st end).
  assert (price st1 = price st) as E1.
  { subst st1. destruct (ld_name it) as [n|]; [now destruct (truthy n)|reflexivity]. }
  destruct (ld_offers_of it) as [os|]; [|intros [= <- <-] H; now rewrite E1].
  destruct (match os with OffersObj o => Some o | OffersArr l => head l end) as [o|];
    [|intros [= <- <-] H; now rewrite E1].
  destruct (gt0 (price _)) eqn:E; intros [= <- <-] _; exact E.
Qed.

Lemma ld_items_price st l st' stop :
  ld_items st l = (st', stop) ->
  gt0 (price st) = false ->
  gt0 (price st') = stop.
Proof.
  revert st. induction l as [|it l IH]; intros st; simpl.
  - now intros [= <- <-].
  - destruct (ld_item_step st it) as [st1 sg] eqn:E. intros H H0.
    pose proof (ld_item_step_price st it st1 sg E H0) as Hp.
    destruct sg.
    + now apply (IH st1).
    + now injection H as <- <-.
    + now injection H as <- <-.
Qed.

Lemma ld_block_step_price st b st' stop :
  ld_block_step st b = (st', stop) ->
  gt0 (price st) = false ->
  gt0 (price st') = stop.
Proof.
  destruct b as [|i|l]; simpl.
  - now intros [= <- <-].
  - apply (ld_items_price st [i]).
  - apply ld_items_price.
Qed.

Lemma step1_jsonld_app st bs more :
  gt0 (price st) = false ->
  step1_jsonld st (bs ++ more) =
    if gt0 (price (step1_jsonld st bs)) then step1_jsonld st bs
    else step1_jsonld (step1_jsonld st bs) more.
Proof.
  revert st. induction bs as [|b bs IH]; intros st H0; simpl.
  - now rewrite H0.
  - destruct (ld_block_step st b) as [st1 stop] eqn:E.
    pose proof (ld_block_step_price st b st1 stop E H0) as Hp.
    destruct stop; [now rewrite Hp|]. now apply IH.
Qed.

(** X7: once the JSON-LD blocks read so far have given a positive price, no
    later block is read; until then the loop goes on with the next block. *)
Theorem jsonld_first_positive_price_wins (bs more : list ld_block) :
  (gt0 (price (step1_jsonld init bs)) = true ->
   step1_jsonld init (bs ++ more) = step1_jsonld init bs) /\
  (gt0 (price (step1_jsonld init bs)) = false ->
   step1_jsonld init (bs ++ more) = step1_jsonld (step1_jsonld init bs) more).
Proof.
  rewrite (step1_jsonld_app init bs more eq_refl).
  split; now intros ->.
Qed.

Lemma jsonld_first_positive_price_wins_witness :
  step1_jsonld init ([usd_product] ++ [unpriced_product; BlockInvalid]) =
    step1_jsonld init [usd_product].
Proof.
  apply (proj1 (jsonld_first_positive_price_wins [usd_product]
                  [unpriced_product; BlockInvalid])).
  reflexivity.
Defined.

(** *** What a result always carries *)

Lemma mapCurrency_nonempty (c : str) : c <> [] -> mapCurrency c <> [].
Proof.
  intros H. unfold mapCurrency.
  repeat (destruct (str_eqb _ _); [discriminate|]). exact H.
Qed.

Lemma set_mapped_currency (o : option str) (st : slots) :
  currency st <> [] ->
  currency (match o with
            | Some c => if truthy c then set_currency (mapCurrency c) st else st
            | None => st
            end) <> [].
Proof.
  intros H. destruct o as [c|]; [|exact H].
  destruct (truthy c) eqn:E; [|exact H].
  apply mapCurrency_nonempty. now apply truthy_cons.
Qed.

Lemma sniff_currency_nonempty t st : currency st <> [] -> currency (sniff t st) <> [].
Proof.
  intros H. rewrite sniff_currency.
  repeat (destruct (includes _ _); cbn [orb]); try discriminate; exact H.
Qed.

Lemma step2_currency d st : currency st <> [] -> currency (step2_meta d st) <> [].
Proof.
  intros H. unfold step2_meta. apply set_mapped_currency.
  set (st1 := if truthy (title st) then st else _).
  assert (currency st1 = currency st) as E1 by (subst st1; now destruct (truthy _)).
  destruct (is0 _); [|now rewrite E1].
  destruct (or_attr (meta_product_price_amount d) _) as [m|]; [|now rewrite E1].
  destruct (truthy m); cbn; now rewrite E1.
Qed.

Lemma step3_currency d st : currency st <> [] -> currency (step3_selectors d st) <> [].
Proof.
  intros H. unfold step3_selectors.
  set (st1 := if truthy (title st) then st else _).
  assert (currency st1 = currency st) as E1 by (subst st1; now destruct (truthy _)).
  destruct (is0 _); [|now rewrite E1]. cbn [priceText set_priceText].
  destruct (truthy (trim _)); [|cbn; now rewrite E1].
  apply sniff_currency_nonempty. cbn. now rewrite E1.
Qed.

Lemma step4_amazon_currency url d st :
  currency st <> [] -> currency (step4_amazon url d st) <> [].
Proof.
  intros H. unfold step4_amazon. destruct (includes (lit "amazon.com") url); [|exact H].
  set (st1 := if truthy (trim (a_offscreen d)) then _ else _).
  assert (currency st1 = currency st) as E1.
  { subst st1. repeat (destruct (truthy _); try reflexivity). }
  destruct (gt0 _); [|now rewrite E1].
  cbn. now destruct (includes _ url).
Qed.

Lemma step4_trendyol_currency url d st :
  currency st <> [] -> currency (step4_trendyol url d st) <> [].
Proof.
  intros H. unfold step4_trendyol. destruct (includes _ url); [|exact H].
  cbn [price set_currency]. destruct (is0 _); [|discriminate].
  destruct (truthy _); discriminate.
Qed.

Lemma scan_currency_nonempty st els : currency st <> [] -> currency (scan st els) <> [].
Proof.
  intros H. induction els as [|el r IH]; [exact H|]. simpl.
  destruct (skipped _); [exact IH|]. destruct (gt0 _); [|exact IH].
  now apply sniff_currency_nonempty.
Qed.

Lemma step5_title_truthy d st : truthy (title (step5_title d st)) = true.
Proof.
  unfold step5_title. destruct (truthy (title st)) eqn:E; [exact E|].
  cbn [title set_title].
  destruct (truthy (trim (h1_first d))) eqn:E1; [exact E1|].
  destruct (truthy (trim (title_text d))) eqn:E2; [exact E2|reflexivity].
Qed.

Lemma truncate_nonempty (t : str) : t <> [] -> truncate t <> [].
Proof.
  intros H. unfold truncate. destruct (100 <? length t)%nat; [|exact H].
  unfold substring0. intros E. apply app_eq_nil in E as [_ E]. discriminate.
Qed.

Lemma step1_without_product (st : slots) (bs : list ld_block) :
  Forall (fun b => block_has_product b = false) bs -> step1_jsonld st bs = st.
Proof.
  induction 1 as [|b bs Hb _ IH]; [reflexivity|]. simpl.
  destruct b as [|i|l]; simpl in *; [exact IH| |].
  - rewrite (ld_item_step_not_product st i Hb). exact IH.
  - rewrite (ld_items_no_product st l Hb). exact IH.
Qed.

(** X9: on a page whose JSON-LD holds no Product item, every successful
    result has a title and a currency that are not empty. *)
Theorem result_without_jsonld_product_has_title_and_currency
    (w : str -> fetch_outcome) (url statusText : str) (d : document) :
  w url = Response true statusText (BodyText d) ->
  Forall (fun b => block_has_product b = false) (ld_json d) ->
  exists t p c r,
    scrapeProductData w url = Scraped t p c r /\ t <> [] /\ c <> [].
Proof.
  intros Hw Hld. unfold scrapeProductData. rewrite Hw.
  eexists _, _, _, _. split; [reflexivity|].
  unfold extract. rewrite (step1_without_product init (ld_json d) Hld).
  cbn [title currency set_title]. split.
  - apply truncate_nonempty. rewrite step5_price_keeps_title.
    apply truthy_cons, step5_title_truthy.
  - unfold step5_price.
    assert (currency (step5_title d (step4_trendyol url d (step4_amazon url d
              (step3_selectors d (step2_meta d init))))) <> []) as H5.
    { assert (currency (step4_trendyol url d (step4_amazon url d
                (step3_selectors d (step2_meta d init)))) <> []) as H4.
      { apply step4_trendyol_currency, step4_amazon_currency, step3_currency,
          step2_currency. discriminate. }
      unfold step5_title. now destruct (truthy _). }
    destruct (is0 _); [now apply scan_currency_nonempty|exact H5].
Qed.

Lemma result_without_jsonld_product_has_title_and_currency_witness :
  exists t p c r,
    scrapeProductData (serve (page [BlockInvalid; breadcrumbs] None (Some (lit "GBP")) [] []))
      shop_url = Scraped t p c r /\ t <> [] /\ c <> [].
Proof.
  apply (result_without_jsonld_product_has_title_and_currency
           (serve (page [BlockInvalid; breadcrumbs] None (Some (lit "GBP")) [] []))
           shop_url (lit "OK")
           (page [BlockInvalid; breadcrumbs] None (Some (lit "GBP")) [] [])).
  - reflexivity.
  - repeat constructor.
Defined.

(** *** Site-specific currencies *)










(** ** The store *)

Lemma last10_append_other (j : Z) (s s' : store) (x : sample) :
  priceHistory s' = priceHistory s ++ [x] -> productId x <> j -> last10 j s' = last10 j s.
Proof.
  intros H Hx. unfold last10. rewrite H, List.filter_app. cbn [List.filter].
  apply Z.eqb_neq in Hx. now rewrite Hx, app_nil_r.
Qed.

Lemma last10_append_own (j : Z) (s s' : store) (x : sample) :
  priceHistory s' = priceHistory s ++ [x] -> productId x = j ->
  last10 j s' = x :: take 9 (last10 j s).
Proof.
  intros H Hx. unfold last10. rewrite H, List.filter_app. cbn [List.filter].
  apply Z.eqb_eq in Hx. rewrite Hx, rev_app_distr. cbn [rev app take].
  now rewrite take_take.
Qed.

Lemma last10_spec (id : Z) (s : store) :
  (length (last10 id s) <= 10)%nat /\
  Forall (fun h => productId h = id /\ h ∈ priceHistory s) (last10 id s).
Proof.
  unfold last10. split.
  - rewrite length_take. lia.
  - apply Forall_take, List.Forall_rev, List.Forall_forall.
    intros h Hh. apply filter_In in Hh as [Hin Hid].
    apply Z.eqb_eq in Hid. split; [exact Hid|]. now apply list_elem_of_In.
Qed.



(** X13: a manual check by the owner whose write goes through answers with
    the updated row and a history that starts with the sample just written,
    followed by at most nine earlier samples of the same product. *)
Theorem manual_check_reply (e : env) (uid id : Z) (s : store) (p : product) :
  products s !! id = Some p -> userId p = uid ->
  write_fails e (ProductUpdate id) = false ->
  exists s',
    check_handler e uid id s =
      (s', Updated (updated_product e p)
             ({| productId := id; s_price := currentPrice (updated_product e p) |}
              :: take 9 (last10 id s))) /\
    products s' !! id = Some (updated_product e p) /\
    (length (take 9 (last10 id s)) < 10)%nat /\
    Forall (fun h => productId h = id) (take 9 (last10 id s)).
Proof.
  intros Hp Hu Hw. unfold check_handler, product_update.
  rewrite (findFirst_Some id uid s p Hp Hu), Hw, Hp.
  eexists. split.
  { apply f_equal2; [reflexivity|]. f_equal.
    now apply (last10_append_own id s). }
  split; [apply lookup_insert_eq|split].
  - rewrite length_take. lia.
  - apply Forall_take. destruct (last10_spec id s) as [_ H].
    eapply Forall_impl; [exact H|]. now intros h [? _].
Qed.

Lemma manual_check_reply_witness :
  exists s',
    check_handler (calm b_hangs) 7 1 three_products =
      (s', Updated (updated_product (calm b_hangs) (tracked url_a "A" 100))
             ({| productId := 1;
                 s_price := currentPrice
                              (updated_product (calm b_hangs) (tracked url_a "A" 100)) |}
              :: take 9 (last10 1 three_products))) /\
    products s' !! 1 = Some (updated_product (calm b_hangs) (tracked url_a "A" 100)) /\
    (length (take 9 (last10 1 three_products)) < 10)%nat /\
    Forall (fun h => productId h = 1) (take 9 (last10 1 three_products)).
Proof.
  apply (manual_check_reply (calm b_hangs) 7 1 three_products (tracked url_a "A" 100)).
  - reflexivity.
  - reflexivity.
  - reflexivity.
Defined.

Lemma last10_filter_other (j id : Z) (s s' : store) :
  priceHistory s' = List.filter (fun h => negb (productId h =? id)) (priceHistory s) ->
  j <> id -> last10 j s' = last10 j s.
Proof.
  intros H Hj. unfold last10. rewrite H. f_equal. f_equal. clear H.
  induction (priceHistory s) as [|h l IH]; [reflexivity|]. cbn [List.filter].
  destruct (Z.eqb_spec (productId h) id) as [E|E]; cbn [negb List.filter].
  - rewrite E. apply Z.eqb_neq in Hj. rewrite Z.eqb_sym, Hj. exact IH.
  - destruct (productId h =? j); [now rewrite IH|exact IH].
Qed.

Lemma filter_removed (id : Z) (l : list sample) :
  List.filter (fun h => productId h =? id)
    (List.filter (fun h => negb (productId h =? id)) l) = [].
Proof.
  induction l as [|h l IH]; [reflexivity|]. cbn [List.filter].
  destruct (productId h =? id) eqn:Eh; cbn [negb List.filter]; [exact IH|].
  now rewrite Eh.
Qed.

(** The outcomes of a delete. *)
Lemma delete_handler_cases (e : env) (uid id : Z) (s : store) :
  delete_handler e uid id s = (s, NotFound) \/
  exists p, products s !! id = Some p /\ userId p = uid /\
    (delete_handler e uid id s = (s, Unhandled) \/
     exists s1, history_deleteMany e id s = Some s1 /\
       (delete_handler e uid id s = (s1, Unhandled) \/
        exists s2, product_delete e id s1 = Some s2 /\
          delete_handler e uid id s = (s2, Deleted))).
Proof.
  unfold delete_handler, findFirst.
  destruct (products s !! id) as [p|]; [|now left].
  destruct (Z.eqb_spec (userId p) uid) as [Hu|Hu]; [|now left].
  right. exists p. split; [reflexivity|]. split; [exact Hu|].
  destruct (history_deleteMany e id s) as [s1|]; [|now left].
  right. exists s1. split; [reflexivity|].
  destruct (product_delete e id s1) as [s2|]; [right; now exists s2|now left].
Qed.

Lemma history_deleteMany_spec (e : env) (id : Z) (s s1 : store) :
  history_deleteMany e id s = Some s1 ->
  users s1 = users s /\ outbox s1 = outbox s /\ products s1 = products s /\
  priceHistory s1 = List.filter (fun h => negb (productId h =? id)) (priceHistory s).
Proof.
  unfold history_deleteMany. destruct (write_fails _ _); [discriminate|].
  now intros [= <-].
Qed.

Lemma product_delete_spec (e : env) (id : Z) (s1 s2 : store) :
  product_delete e id s1 = Some s2 ->
  users s2 = users s1 /\ outbox s2 = outbox s1 /\
  products s2 = delete id (products s1) /\ priceHistory s2 = priceHistory s1.
Proof.
  unfold product_delete. destruct (write_fails _ _); [discriminate|].
  destruct (products s1 !! id); [|discriminate]. now intros [= <-].
Qed.

(** X14: whatever its outcome, a delete leaves the outbox, every other
    product and the history of every other product as they were. *)
Theorem delete_leaves_the_rest (e : env) (uid id : Z) (s : store) :
  outbox (fst (delete_handler e uid id s)) = outbox s /\
  forall j, j <> id ->
    products (fst (delete_handler e uid id s)) !! j = products s !! j /\
    last10 j (fst (delete_handler e uid id s)) = last10 j s.
Proof.
  destruct (delete_handler_cases e uid id s)
    as [->|(p & _ & _ & [->|(s1 & Hs1 & [->|(s2 & Hs2 & ->)])])]; cbn [fst];
    try (repeat split; reflexivity).
  - destruct (history_deleteMany_spec e id s s1 Hs1) as (_ & -> & Hp & Hh). repeat split.
    + now rewrite Hp.
    + now apply (last10_filter_other j id s).
  - destruct (history_deleteMany_spec e id s s1 Hs1) as (_ & Ho & Hp & Hh).
    destruct (product_delete_spec e id s1 s2 Hs2) as (_ & -> & Hp2 & Hh2).
    repeat split; try assumption.
    + rewrite Hp2, Hp. now apply lookup_delete_ne.
    + apply (last10_filter_other j id s); [congruence|assumption].
Qed.

Lemma delete_leaves_the_rest_witness :
  products (fst (delete_handler (calm hang) 7 1 three_products)) !! 3 =
    products three_products !! 3 /\
  last10 3 (fst (delete_handler (calm hang) 7 1 three_products)) =
    last10 3 three_products.
Proof.
  apply (proj2 (delete_leaves_the_rest (calm hang) 7 1 three_products)).
  lia.
Defined.

(** X15: after a delete that answered success the product and its samples
    are gone, and every later check or delete of that id, by anyone, on a
    store with these products and samples, answers 404 and changes no
    product, no sample and no mail. *)
Theorem deleted_product_is_gone (e e' : env) (uid uid' id : Z) (s s1 : store) :
  snd (delete_handler e uid id s) = Deleted ->
  same_catalog (fst (delete_handler e uid id s)) s1 ->
  products s1 !! id = None /\
  last10 id s1 = [] /\
  snd (check_handler e' uid' id s1) = NotFound /\
  same_catalog (fst (check_handler e' uid' id s1)) s1 /\
  snd (delete_handler e' uid' id s1) = NotFound /\
  same_catalog (fst (delete_handler e' uid' id s1)) s1.
Proof.
  intros H Hc.
  destruct (delete_handler_cases e uid id s)
    as [E|(p & _ & _ & [E|(s1' & Hs1 & [E|(s2 & Hs2 & E)])])]; rewrite E in H;
    try discriminate.
  rewrite E in Hc. cbn [fst] in Hc. destruct Hc as (Hcp & Hch & _).
  destruct (history_deleteMany_spec e id s s1' Hs1) as (_ & _ & Hp & Hh).
  destruct (product_delete_spec e id s1' s2 Hs2) as (_ & _ & Hp2 & Hh2).
  assert (products s1 !! id = None) as Hn
    by (rewrite <- Hcp, Hp2; apply lookup_delete_eq).
  split; [exact Hn|]. split.
  - unfold last10. now rewrite <- Hch, Hh2, Hh, filter_removed.
  - unfold check_handler, delete_handler, findFirst. rewrite Hn. cbn [fst snd].
    repeat split.
Qed.

Lemma deleted_product_is_gone_witness :
  products (fst (delete_handler (calm hang) 7 1 one_product)) !! 1 = None /\
  last10 1 (fst (delete_handler (calm hang) 7 1 one_product)) = [] /\
  snd (check_handler (calm hang) 8 1 (fst (delete_handler (calm hang) 7 1 one_product))) =
    NotFound /\
  same_catalog
    (fst (check_handler (calm hang) 8 1 (fst (delete_handler (calm hang) 7 1 one_product))))
    (fst (delete_handler (calm hang) 7 1 one_product)) /\
  snd (delete_handler (calm hang) 8 1 (fst (delete_handler (calm hang) 7 1 one_product))) =
    NotFound /\
  same_catalog
    (fst (delete_handler (calm hang) 8 1 (fst (delete_handler (calm hang) 7 1 one_product))))
    (fst (delete_handler (calm hang) 7 1 one_product)).
Proof.
  apply (deleted_product_is_gone (calm hang) (calm hang) 7 8 1 one_product).
  - reflexivity.
  - repeat split.
Defined.

(** The outcomes of a manual check. *)
Lemma check_handler_cases (e : env) (uid id : Z) (s : store) :
  fst (check_handler e uid id s) = s \/
  exists p, products s !! id = Some p /\ userId p = uid /\
    fst (check_handler e uid id s) =
      {| products := <[id := updated_product e p]> (products s);
         priceHistory := priceHistory s ++ [sample_of e (id, p, None)];
         users := users s; outbox := outbox s |}.
Proof.
  unfold check_handler, findFirst, product_update.
  destruct (products s !! id) as [p|]; [|now left].
  destruct (Z.eqb_spec (userId p) uid) as [Hu|Hu]; [|now left].
  destruct (write_fails _ _); [now left|].
  right. exists p. auto.
Qed.

(** The outcomes of an add. *)
Lemma add_handler_cases (e : env) (uid : Z) (assigned : option Z) (body_url : option str)
    (s : store) :
  fst (add_handler e uid assigned body_url s) = s \/
  exists id u, assigned = Some id /\ body_url = Some u /\ u <> [] /\
    products s !! id = None /\
    add_handler e uid assigned body_url s =
      ({| products :=
            <[id := {| url := u; p_title := sp_title (scrapePrice (web e) u);
                       currentPrice := sp_price (scrapePrice (web e) u);
                       p_currency := sp_currency (scrapePrice (web e) u);
                       userId := uid |}]> (products s);
          priceHistory :=
            priceHistory s ++
            [{| productId := id; s_price := sp_price (scrapePrice (web e) u) |}];
          users := users s; outbox := outbox s |},
       Created id {| url := u; p_title := sp_title (scrapePrice (web e) u);
                     currentPrice := sp_price (scrapePrice (web e) u);
                     p_currency := sp_currency (scrapePrice (web e) u);
                     userId := uid |}).
Proof.
  unfold add_handler, product_create.
  destruct body_url as [u|]; [|now left]. cbn [is_set default].
  destruct (truthy u) eqn:Hu; [|now left].
  destruct assigned as [id|]; [|now left].
  destruct (products s !! id) eqn:Hid; [now left|].
  right. exists id, u. split; [reflexivity|]. split; [reflexivity|].
  split; [now apply truthy_cons|]. split; [exact Hid|reflexivity].
Qed.

(** X16: adding a URL under a fresh id stores one product with the scraped
    title, price and currency and one sample at that price, and leaves every
    other product alone; the stored price is never negative; when the fetch
    fails the product is still created, at price 0, titled "Unknown Product",
    in lira. *)
Theorem add_creates_one_product (e : env) (uid id : Z) (u : str) (s : store) :
  u <> [] -> products s !! id = None ->
  let r := scrapePrice (web e) u in
  let p := {| url := u; p_title := sp_title r; currentPrice := sp_price r;
              p_currency := sp_currency r; userId := uid |} in
  let s' := fst (add_handler e uid (Some id) (Some u) s) in
  snd (add_handler e uid (Some id) (Some u) s) = Created id p /\
  products s' !! id = Some p /\
  (forall j, j <> id -> products s' !! j = products s !! j /\ last10 j s' = last10 j s) /\
  priceHistory s' = priceHistory s ++ [{| productId := id; s_price := currentPrice p |}] /\
  nonneg (currentPrice p) /\
  (fetch_failed (web e u) ->
   p = {| url := u; p_title := lit "Unknown Product"; currentPrice := ZERO;
          p_currency := LIRA; userId := uid |}).
Proof.
  intros Hu Hid r p s'.
  assert (add_handler e uid (Some id) (Some u) s =
            ({| products := <[id := p]> (products s);
                priceHistory := priceHistory s ++
                                [{| productId := id; s_price := currentPrice p |}];
                users := users s; outbox := outbox s |}, Created id p)) as E.
  { unfold add_handler, product_create. cbn [is_set default].
    apply truthy_cons in Hu. now rewrite Hu, Hid. }
  subst s'. rewrite E. cbn [fst snd products priceHistory].
  split; [reflexivity|]. split; [apply lookup_insert_eq|]. split; [|split; [reflexivity|split]].
  - intros j Hj. split; [now apply lookup_insert_ne|].
    eapply last10_append_other; [reflexivity|]. cbn. congruence.
  - subst p r. cbn [currentPrice]. unfold scrapePrice.
    destruct (scrapeProductData (web e) u) as [t q c rw|err]; cbn [sp_price].
    + destruct (gt0 q) eqn:Eq; [now apply gt0_nonneg|apply Qle_refl].
    + apply Qle_refl.
  - intros Hf. subst p r. unfold scrapePrice, scrapeProductData, caught.
    destruct (web e u) as [m|m|ok st b]; cbn in Hf; try reflexivity.
    subst ok. reflexivity.
Qed.

Lemma add_creates_one_product_witness :
  snd (add_handler (calm hang) 7 (Some 2) (Some url_b) one_product) =
    Created 2 {| url := url_b; p_title := lit "Unknown Product"; currentPrice := ZERO;
                 p_currency := LIRA; userId := 7 |}.
Proof.
  apply (add_creates_one_product (calm hang) 7 2 url_b one_product).
  - discriminate.
  - reflexivity.
Defined.

Lemma no_samples_of_unknown (id : Z) (s : store) :
  no_orphans s -> products s !! id = None ->
  List.filter (fun h => negb (productId h =? id)) (priceHistory s) = priceHistory s.
Proof.
  intros Ho Hid. unfold no_orphans in Ho.
  induction (priceHistory s) as [|h l IH]; [reflexivity|]. cbn [List.filter].
  destruct (Z.eqb_spec (productId h) id) as [E|E]; cbn [negb].
  - destruct (Ho h) as [p Hp]; [left|]. congruence.
  - f_equal. apply IH. intros h' Hh'. apply Ho. now right.
Qed.

(** X17: on a store without orphaned samples, adding a product and then
    deleting it restores the products, the samples and the outbox as they
    were before, whatever user rows were added in between. *)
Theorem add_then_delete_restores (e e' : env) (uid id : Z) (u : str) (s s1 : store) :
  no_orphans s -> products s !! id = None -> u <> [] ->
  write_fails e' (HistoryDeleteMany id) = false ->
  write_fails e' (ProductDelete id) = false ->
  same_catalog (fst (add_handler e uid (Some id) (Some u) s)) s1 ->
  snd (delete_handler e' uid id s1) = Deleted /\
  same_catalog (fst (delete_handler e' uid id s1)) s.
Proof.
  intros Ho Hid Hu Hw1 Hw2.
  unfold add_handler, product_create. cbn [is_set default].
  apply truthy_cons in Hu. rewrite Hu, Hid.
  cbn [fst]. intros (Hp & Hh & Hb). cbn [products priceHistory outbox] in Hp, Hh, Hb.
  unfold delete_handler, findFirst, history_deleteMany, product_delete.
  rewrite <- Hp, lookup_insert_eq. cbn [userId].
  rewrite Z.eqb_refl, Hw1, Hw2. cbn [products]. rewrite lookup_insert_eq.
  cbn [fst snd]. split; [reflexivity|]. unfold same_catalog.
  cbn [products priceHistory outbox].
  rewrite <- Hh, <- Hb, delete_insert_id by exact Hid.
  rewrite List.filter_app. cbn [List.filter productId]. rewrite Z.eqb_refl. cbn [negb].
  now rewrite app_nil_r, (no_samples_of_unknown id s Ho Hid).
Qed.

Lemma add_then_delete_restores_witness :
  snd (delete_handler (calm hang) 7 2
         (fst (add_handler (calm hang) 7 (Some 2) (Some url_b) one_product))) = Deleted /\
  same_catalog
    (fst (delete_handler (calm hang) 7 2
            (fst (add_handler (calm hang) 7 (Some 2) (Some url_b) one_product))))
    one_product.
Proof.
  apply (add_then_delete_restores (calm hang) (calm hang) 7 2 url_b one_product).
  - intros h Hh. apply list_elem_of_singleton in Hh as ->. now exists mug.
  - reflexivity.
  - discriminate.
  - reflexivity.
  - reflexivity.
  - repeat split.
Defined.

(** *** What a user sees *)

Lemma products_of_lookup (uid : Z) (s : store) (id : Z) :
  products_of uid s !! id =
    match products s !! id with
    | Some p => if userId p =? uid then Some (p, last10 id s) else None
    | None => None
    end.
Proof. unfold products_of. rewrite map_lookup_imap. now destruct (products s !! id). Qed.

(** X18: a row of the listing of a user is a stored product of that user,
    with at most ten samples, all of them samples of that product, the most
    recent one first. *)
Theorem listing_is_own_and_bounded (uid id : Z) (s : store) (p : product)
    (hist : list sample) :
  products_of uid s !! id = Some (p, hist) ->
  products s !! id = Some p /\ userId p = uid /\
  (length hist <= 10)%nat /\
  Forall (fun h => productId h = id /\ h ∈ priceHistory s) hist /\
  (forall pre x, priceHistory s = pre ++ [x] -> productId x = id -> head hist = Some x).
Proof.
  rewrite products_of_lookup. destruct (products s !! id) as [q|]; [|discriminate].
  destruct (Z.eqb_spec (userId q) uid) as [Hu|Hu]; [|discriminate].
  intros [= -> <-]. destruct (last10_spec id s) as [Hl Hf].
  repeat split; try assumption.
  intros pre x Hh Hx. unfold last10. rewrite Hh, List.filter_app. cbn [List.filter].
  apply Z.eqb_eq in Hx. now rewrite Hx, rev_app_distr.
Qed.

Lemma listing_is_own_and_bounded_witness :
  products one_product !! 1 = Some mug /\ userId mug = 7 /\
  (length [ {| productId := 1; s_price := Fin 100 |} ] <= 10)%nat /\
  Forall (fun h => productId h = 1 /\ h ∈ priceHistory one_product)
         [ {| productId := 1; s_price := Fin 100 |} ] /\
  (forall pre x, priceHistory one_product = pre ++ [x] -> productId x = 1 ->
     head [ {| productId := 1; s_price := Fin 100 |} ] = Some x).
Proof.
  apply (listing_is_own_and_bounded 7 1 one_product mug
           [ {| productId := 1; s_price := Fin 100 |} ]).
  reflexivity.
Defined.

(** X19: a check, a delete or an add by one user changes nothing in the
    listing of any other user. *)
Theorem other_users_see_no_change (e : env) (uid uid' id : Z) (assigned : option Z)
    (body_url : option str) (s : store) :
  uid <> uid' ->
  products_of uid' (fst (check_handler e uid id s)) = products_of uid' s /\
  products_of uid' (fst (delete_handler e uid id s)) = products_of uid' s /\
  products_of uid' (fst (add_handler e uid assigned body_url s)) = products_of uid' s.
Proof.
  intros Hne. apply Z.eqb_neq in Hne. split; [|split].
  - destruct (check_handler_cases e uid id s) as [->|(p & Hp & <- & ->)]; [reflexivity|].
    apply map_eq. intros j. rewrite !products_of_lookup. cbn [products].
    destruct (decide (j = id)) as [->|Hj].
    + rewrite lookup_insert_eq, Hp. unfold updated_product. cbn [userId with_price].
      now rewrite Hne.
    + rewrite lookup_insert_ne by congruence.
      destruct (products s !! j) as [q|]; [|reflexivity].
      destruct (userId q =? uid'); [|reflexivity]. do 2 f_equal.
      eapply last10_append_other; [reflexivity|]. cbn. congruence.
  - destruct (delete_handler_cases e uid id s)
      as [->|(p & Hp & <- & [->|(s1 & Hs1 & [->|(s2 & Hs2 & ->)])])];
      cbn [fst]; try reflexivity.
    + destruct (history_deleteMany_spec e id s s1 Hs1) as (_ & _ & Hp1 & Hh1).
      apply map_eq. intros j. rewrite !products_of_lookup, Hp1.
      destruct (decide (j = id)) as [->|Hj]; [now rewrite Hp, Hne|].
      destruct (products s !! j) as [q|]; [|reflexivity].
      destruct (userId q =? uid'); [|reflexivity]. do 2 f_equal.
      now apply (last10_filter_other j id s).
    + destruct (history_deleteMany_spec e id s s1 Hs1) as (_ & _ & Hp1 & Hh1).
      destruct (product_delete_spec e id s1 s2 Hs2) as (_ & _ & Hp2 & Hh2).
      apply map_eq. intros j. rewrite !products_of_lookup, Hp2, Hp1.
      destruct (decide (j = id)) as [->|Hj]; [now rewrite lookup_delete_eq, Hp, Hne|].
      rewrite lookup_delete_ne by congruence.
      destruct (products s !! j) as [q|]; [|reflexivity].
      destruct (userId q =? uid'); [|reflexivity]. do 2 f_equal.
      apply (last10_filter_other j id s); [congruence|assumption].
  - destruct (add_handler_cases e uid assigned body_url s)
      as [->|(id' & u & _ & _ & _ & Hid & ->)]; [reflexivity|]. cbn [fst].
    apply map_eq. intros j. rewrite !products_of_lookup. cbn [products].
    destruct (decide (j = id')) as [->|Hj].
    + rewrite lookup_insert_eq, Hid. cbn [userId]. now rewrite Hne.
    + rewrite lookup_insert_ne by congruence.
      destruct (products s !! j) as [q|]; [|reflexivity].
      destruct (userId q =? uid'); [|reflexivity]. do 2 f_equal.
      eapply last10_append_other; [reflexivity|]. cbn. congruence.
Qed.

Lemma other_users_see_no_change_witness :
  products_of 8 (fst (check_handler (calm hang) 7 1 one_product)) =
    products_of 8 one_product /\
  products_of 8 (fst (delete_handler (calm hang) 7 1 one_product)) =
    products_of 8 one_product /\
  products_of 8 (fst (add_handler (calm hang) 7 (Some 2) (Some url_b) one_product)) =
    products_of 8 one_product.
Proof.
  apply (other_users_see_no_change (calm hang) 7 8 1 (Some 2) (Some url_b) one_product).
  lia.
Defined.

(** *** The sweep, again *)

Lemma job_one_check_one (e : env) (s : store) (n : nat) (row : Z * product * option str) :
  job_one e s row = fst (check_one e (s, n) row).
Proof.
  destruct row as [[id p] email]. unfold job_one, check_one.
  destruct (gt0 _); [|reflexivity].
  destruct (product_update _ _ _ _ _); reflexivity.
Qed.

Lemma job_fold (e : env) (rows : list (Z * product * option str)) (s : store) (n : nat) :
  fold_left (job_one e) rows s = fst (fold_left (check_one e) rows (s, n)).
Proof.
  revert s n. induction rows as [|row rows IH]; intros s n; [reflexivity|].
  cbn [fold_left]. rewrite (job_one_check_one e s n row).
  destruct (check_one e (s, n) row) as [s1 n1]. apply IH.
Qed.

(** X20: the six-hourly background job leaves the store that the cron
    endpoint leaves. *)
Theorem background_job_is_the_sweep (e : env) (s : store) :
  background_job e s = fst (cron_check e s).
Proof.
  unfold background_job, cron_check, sweep.
  rewrite (job_fold e (findMany s) s 0%nat).
  now destruct (fold_left (check_one e) (findMany s) (s, 0%nat)).
Qed.

Lemma check_one_outbox (e : env) (s : store) (n : nat) (id : Z) (p : product)
    (email : option str) :
  products s !! id = Some p ->
  outbox (fst (check_one e (s, n) (id, p, email))) =
    outbox s ++ (if row_mailed e (id, p, email) then [mail_of e (id, p, email)] else []).
Proof.
  intros Hp. unfold check_one, row_mailed, row_updated, product_update, mail_of.
  cbn [fst snd].
  destruct (gt0 _); cbn [andb]; [|now rewrite app_nil_r].
  destruct (write_fails e (ProductUpdate id)); cbn [andb negb fst]; [now rewrite app_nil_r|].
  rewrite Hp.
  destruct (num_lt _ _); cbn [andb fst]; [|now rewrite app_nil_r].
  destruct email as [a|]; cbn [is_set andb]; [|now rewrite app_nil_r].
  destruct (truthy a) eqn:Ha; cbn [andb]; [|now rewrite app_nil_r].
  unfold sendPriceDropEmail. cbn [m_to].
  change (default [] (Some a)) with a. rewrite Ha.
  destruct (smtp_fails e _); cbn [negb outbox]; [now rewrite app_nil_r|reflexivity].
Qed.

Lemma sweep_outbox_acc (e : env) (rows : list (Z * product * option str)) :
  forall (s : store) (n : nat),
    NoDup (map row_id rows) ->
    (forall id p email, (id, p, email) ∈ rows -> products s !! id = Some p) ->
    outbox (fst (fold_left (check_one e) rows (s, n))) =
      outbox s ++ map (mail_of e) (List.filter (row_mailed e) rows).
Proof.
  induction rows as [|[[id p] email] rows IH]; intros s n Hnd Hrows.
  - cbn. now rewrite app_nil_r.
  - cbn [map row_id fst] in Hnd. apply NoDup_cons in Hnd as [Hid Hnd].
    assert (products s !! id = Some p) as Hp by (apply (Hrows id p email); left).
    pose proof (check_one_outbox e s n id p email Hp) as Ho.
    destruct (check_one_spec e s n id p email Hp) as (s1 & Hstep & Hprod & _).
    cbn [fold_left]. rewrite Hstep in *. cbn [fst] in Ho.
    rewrite IH; [| exact Hnd |].
    + rewrite Ho. cbn [List.filter].
      destruct (row_mailed e (id, p, email)); cbn [map app]; now rewrite <- app_assoc.
    + intros j q em Hj.
      assert (j <> id) as Hne.
      { intros ->. apply Hid. apply list_elem_of_fmap. now exists (id, q, em). }
      rewrite Hprod. destruct (row_updated _ _).
      * rewrite lookup_insert_ne by congruence. apply (Hrows j q em). now right.
      * apply (Hrows j q em). now right.
Qed.

Lemma NoDup_filter_rows (f : Z * product * option str -> bool)
    (rows : list (Z * product * option str)) :
  NoDup (map row_id rows) -> NoDup (map row_id (List.filter f rows)).
Proof.
  induction rows as [|row rows IH]; [intros; constructor|].
  cbn [map List.filter]. intros H. apply NoDup_cons in H as [Hn Hd].
  destruct (f row); [|now apply IH]. cbn [map]. apply NoDup_cons. split; [|now apply IH].
  intros Hin. apply Hn. apply list_elem_of_fmap in Hin as (r & -> & Hr).
  apply list_elem_of_fmap. exists r. split; [reflexivity|].
  apply list_elem_of_In. apply list_elem_of_In in Hr. now apply filter_In in Hr.
Qed.

Lemma mailed_le_updated (e : env) (rows : list (Z * product * option str)) :
  (length (List.filter (row_mailed e) rows) <=
   length (List.filter (row_updated e) rows))%nat.
Proof.
  induction rows as [|row rows IH]; [reflexivity|]. cbn [List.filter].
  destruct (row_mailed e row) eqn:E1, (row_updated e row) eqn:E2; cbn [length]; try lia.
  unfold row_mailed in E1. rewrite E2 in E1. discriminate.
Qed.

(** X21: the mails a sweep adds to the outbox are those of the updated
    products whose price dropped, whose owner has an address and whose
    transport did not fail: at most one per product, never more than the
    number of updated products, each with a new price that is positive and
    below the old one and with a recipient. *)
Theorem sweep_mails_only_drops (e : env) (s : store) :
  let mailed := List.filter (row_mailed e) (findMany s) in
  outbox (fst (cron_check e s)) = outbox s ++ map (mail_of e) mailed /\
  NoDup (map row_id mailed) /\
  (length mailed <= length (List.filter (row_updated e) (findMany s)))%nat /\
  Forall (fun m => num_lt (m_newPrice m) (m_oldPrice m) = true /\
                   gt0 (m_newPrice m) = true /\ m_to m <> [] /\
                   smtp_fails e m = false) (map (mail_of e) mailed).
Proof.
  intros mailed. destruct (findMany_rows s) as [Hnd Hrows].
  split; [|split; [|split]].
  - unfold cron_check, sweep.
    pose proof (sweep_outbox_acc e (findMany s) s 0%nat Hnd) as H.
    destruct (fold_left (check_one e) (findMany s) (s, 0%nat)) as [s' n]. cbn [fst] in *.
    apply H. intros id p email Hin. now apply Hrows in Hin.
  - now apply NoDup_filter_rows.
  - apply mailed_le_updated.
  - subst mailed. apply Forall_fmap, List.Forall_forall.
    intros [[id p] email] Hin. apply filter_In in Hin as [_ Hm].
    unfold row_mailed, row_updated in Hm. cbn [fst snd] in Hm.
    apply andb_true_iff in Hm as [Hm Hs]. apply andb_true_iff in Hm as [Hm He].
    apply andb_true_iff in Hm as [Hm Hl]. apply andb_true_iff in Hm as [Hg _].
    apply negb_true_iff in Hs.
    cbn [mail_of m_newPrice m_oldPrice m_to]. repeat split; try assumption.
    destruct email as [a|]; [|discriminate]. now apply truthy_cons.
Qed.

(** What [sweep_acc] says about the cron endpoint. *)
Lemma cron_check_store (e : env) (s : store) :
  priceHistory (fst (cron_check e s)) =
    priceHistory s ++ map (sample_of e) (List.filter (row_updated e) (findMany s)) /\
  users (fst (cron_check e s)) = users s /\
  forall id,
    products (fst (cron_check e s)) !! id =
      match products s !! id with
      | Some p => Some (if row_updated e (id, p, owner_email s p)
                        then updated_product e p else p)
      | None => None
      end.
Proof.
  destruct (findMany_rows s) as [Hnd Hrows].
  destruct (sweep_acc e (findMany s) s 0%nat Hnd) as (s' & Hfold & Hh & Hu & Hin & Hout).
  { intros id p email H. now apply Hrows in H. }
  unfold cron_check, sweep. rewrite Hfold. cbn [fst].
  split; [exact Hh|]. split; [exact Hu|]. intros id.
  destruct (products s !! id) as [p|] eqn:Hp.
  - apply (Hin id p (owner_email s p)). now apply Hrows.
  - rewrite Hout; [exact Hp|].
    intros Hj. apply list_elem_of_fmap in Hj as ([[j q] em] & -> & Hj).
    apply Hrows in Hj as [Hj _]. unfold row_id in Hp. cbn in Hp. congruence.
Qed.

(** X22: when every stored price and every sample is positive, they still
    are after a sweep. *)
Theorem sweep_keeps_prices_positive (e : env) (s : store) :
  positive_prices s -> positive_prices (fst (cron_check e s)).
Proof.
  intros [Hp Hh]. destruct (cron_check_store e s) as (Eh & _ & Ep). split.
  - intros id p'. rewrite Ep. destruct (products s !! id) as [p|] eqn:E; [|discriminate].
    destruct (row_updated e (id, p, owner_email s p)) eqn:Er; intros [= <-].
    + unfold row_updated in Er. apply andb_true_iff in Er as [Hg _]. exact Hg.
    + now apply (Hp id).
  - rewrite Eh. apply Forall_app. split; [exact Hh|].
    apply Forall_fmap, List.Forall_forall. intros [[id p] em] Hin.
    apply filter_In in Hin as [_ Hr]. unfold row_updated in Hr.
    apply andb_true_iff in Hr as [Hg _]. cbn [sample_of s_price]. exact Hg.
Qed.

Lemma sweep_keeps_prices_positive_witness :
  positive_prices (fst (cron_check (calm b_hangs) one_product)).
Proof.
  apply (sweep_keeps_prices_positive (calm b_hangs) one_product). split.
  - intros id p H. change (products one_product) with ({[ 1 := mug ]} : gmap Z product) in H.
    apply lookup_singleton_Some in H as [_ <-]. reflexivity.
  - repeat constructor.
Defined.

(** X23: a manual check, an add, the cron endpoint and the background job
    all keep every sample attached to a stored product. *)
Theorem endpoints_keep_history_attached (e : env) (uid id : Z) (assigned : option Z)
    (body_url : option str) (s : store) :
  no_orphans s ->
  no_orphans (fst (check_handler e uid id s)) /\
  no_orphans (fst (add_handler e uid assigned body_url s)) /\
  no_orphans (fst (cron_check e s)) /\
  no_orphans (background_job e s).
Proof.
  intros Ho.
  assert (no_orphans (fst (cron_check e s))) as Hc.
  { destruct (cron_check_store e s) as (Eh & _ & Ep). intros h. rewrite Eh, Ep.
    intros Hin. apply elem_of_app in Hin as [Hin|Hin].
    - destruct (Ho h Hin) as [p Hp]. rewrite Hp. eauto.
    - apply list_elem_of_fmap in Hin as ([[j q] em] & -> & Hin).
      apply list_elem_of_In, filter_In in Hin as [Hin _].
      apply list_elem_of_In, findMany_rows in Hin as [Hq _].
      cbn [sample_of productId]. rewrite Hq. eauto. }
  split; [|split; [|split]].
  - destruct (check_handler_cases e uid id s) as [->|(p & Hp & _ & ->)]; [exact Ho|].
    intros h. cbn [priceHistory products]. intros Hin.
    apply elem_of_app in Hin as [Hin|Hin].
    + destruct (decide (productId h = id)) as [->|Hne].
      * rewrite lookup_insert_eq. eauto.
      * rewrite lookup_insert_ne by congruence. now apply Ho.
    + apply list_elem_of_singleton in Hin as ->. cbn. rewrite lookup_insert_eq. eauto.
  - destruct (add_handler_cases e uid assigned body_url s)
      as [->|(id' & u & _ & _ & _ & _ & ->)]; [exact Ho|].
    intros h. cbn [fst priceHistory products]. intros Hin.
    apply elem_of_app in Hin as [Hin|Hin].
    + destruct (decide (productId h = id')) as [->|Hne].
      * rewrite lookup_insert_eq. eauto.
      * rewrite lookup_insert_ne by congruence. now apply Ho.
    + apply list_elem_of_singleton in Hin as ->. cbn. rewrite lookup_insert_eq. eauto.
  - exact Hc.
  - unfold background_job, cron_check, sweep in *.
    rewrite (job_fold e (findMany s) s 0%nat).
    now destruct (fold_left (check_one e) (findMany s) (s, 0%nat)).
Qed.

Lemma endpoints_keep_history_attached_witness :
  no_orphans (fst (check_handler (calm hang) 7 1 one_product)) /\
  no_orphans (fst (add_handler (calm hang) 7 (Some 2) (Some url_b) one_product)) /\
  no_orphans (fst (cron_check (calm hang) one_product)) /\
  no_orphans (background_job (calm hang) one_product).
Proof.
  apply (endpoints_keep_history_attached (calm hang) 7 1 (Some 2) (Some url_b) one_product).
  intros h Hh. apply list_elem_of_singleton in Hh as ->. now exists mug.
Defined.

(** *** The notification address *)

(** X24: saving a notification address changes only the row of that user;
    afterwards the sweep reads that address for all products of the user: it
    mails them to exactly this address, and to no one when the address is
    null or empty. *)
Theorem settings_then_sweep (e : env) (uid : Z) (v : option str) (s : store) :
  is_Some (users s !! uid) ->
  let s1 := fst (settings_handler false uid (Some v) s) in
  snd (settings_handler false uid (Some v) s) = SettingsSaved v /\
  products s1 = products s /\ priceHistory s1 = priceHistory s /\ outbox s1 = outbox s /\
  (forall j, j <> uid -> users s1 !! j = users s !! j) /\
  (forall id p email, (id, p, email) ∈ findMany s1 -> userId p = uid -> email = v) /\
  (is_set v = false ->
   forall id p email, (id, p, email) ∈ findMany s1 -> userId p = uid ->
     row_mailed e (id, p, email) = false) /\
  (forall id p email,
     (id, p, email) ∈ List.filter (row_mailed e) (findMany s1) -> userId p = uid ->
     v = Some (m_to (mail_of e (id, p, email))) /\ m_to (mail_of e (id, p, email)) <> []).
Proof.
  intros [u Hu] s1.
  assert (settings_handler false uid (Some v) s =
            ({| products := products s; priceHistory := priceHistory s;
                users := <[uid := {| notificationEmail := v |}]> (users s);
                outbox := outbox s |}, SettingsSaved v)) as E
    by (unfold settings_handler; now rewrite Hu).
  subst s1. rewrite E. cbn [fst snd products priceHistory outbox users].
  set (s1 := {| products := products s; priceHistory := priceHistory s;
                users := <[uid := {| notificationEmail := v |}]> (users s);
                outbox := outbox s |}).
  assert (forall id p email, (id, p, email) ∈ findMany s1 -> userId p = uid -> email = v)
    as Hrow.
  { intros id p email Hin Hp. apply findMany_rows in Hin as [_ ->].
    unfold owner_email. subst s1. cbn [users]. now rewrite Hp, lookup_insert_eq. }
  split; [reflexivity|]. split; [reflexivity|]. split; [reflexivity|].
  split; [reflexivity|]. split; [|split; [exact Hrow|split]].
  - intros j Hj. now apply lookup_insert_ne.
  - intros Hv id p email Hin Hp. rewrite (Hrow id p email Hin Hp).
    unfold row_mailed. cbn [snd]. rewrite Hv. now rewrite andb_false_r.
  - intros id p email Hf Hp.
    apply list_elem_of_In, filter_In in Hf as [Hin Hm]. apply list_elem_of_In in Hin.
    rewrite (Hrow id p email Hin Hp) in *. unfold row_mailed in Hm. cbn [snd] in Hm.
    apply andb_true_iff in Hm as [Hm _]. apply andb_true_iff in Hm as [_ Hs].
    destruct v as [a|]; [|discriminate]. split; [reflexivity|]. now apply truthy_cons.
Qed.

Lemma settings_then_sweep_witness :
  snd (settings_handler false 7 (Some (Some (lit "new@example.org"))) one_product) =
    SettingsSaved (Some (lit "new@example.org")).
Proof.
  apply (settings_then_sweep (calm hang) 7 (Some (lit "new@example.org")) one_product).
  now exists {| notificationEmail := Some (lit "me@example.org") |}.
Defined.
